(** * dotfiles-mcp: the tool dispatcher of [src/main.py]

    A shallow embedding of the two dotfile queries ([list_dotfiles],
    [get_file_content]) and of the dispatcher [call_tool], together with the
    Python built-ins they rely on ([str.split], [str.strip], [str.join],
    [os.path.join], [os.path.expanduser]).

    Conventions.
    - A Python [str] is a [string]; each [ascii] stands for one character
      (the code points below 256).  The newline character is ["010"%char].
    - The operating system is an oracle, [World]: it answers
      [os.path.exists], [open(...).read()] and [subprocess.run].  A
      computation is a function of the world that yields the list of
      system calls it made and either a value or a raised exception.
    - POSIX is assumed ([os.path] is [posixpath], the separator is ["/"]). *)

From Stdlib Require Import ZArith Ascii DecimalString Floats.
From stdpp Require Import base option list strings gmap.

Local Open Scope Z_scope.

(** ** Python built-ins *)

Module Py.

(** ["\n"] *)
Definition nl_char : ascii := "010"%char.
Definition nl : string := String nl_char "".

(** [str.isspace] on one character: the whitespace code points below 256
    (TAB, LF, VT, FF, CR, FS, GS, RS, US, SPACE, NEL, NBSP). *)
Definition isspace (c : ascii) : bool :=
  match c with
  | "009" | "010" | "011" | "012" | "013"
  | "028" | "029" | "030" | "031"
  | " " | "133" | "160" => true
  | _ => false
  end%char.

(** [s.lstrip(..)] / [s.rstrip(..)], the stripped set given as a test. *)
Fixpoint lstrip_by (p : ascii → bool) (s : string) : string :=
  match s with
  | "" => ""
  | String c s' => if p c then lstrip_by p s' else s
  end.

Fixpoint rstrip_by (p : ascii → bool) (s : string) : string :=
  match s with
  | "" => ""
  | String c s' =>
      match rstrip_by p s' with
      | "" => if p c then "" else String c ""
      | r => String c r
      end
  end.

(** [s.strip()] *)
Definition strip (s : string) : string := rstrip_by isspace (lstrip_by isspace s).

(** [s.rstrip("/")] *)
Definition rstrip_sep (s : string) : string := rstrip_by (Ascii.eqb "/") s.

(** [s.split(sep)] for a one-character separator: never the empty list. *)
Fixpoint split (s : string) (sep : ascii) : list string :=
  match s with
  | "" => [""]
  | String c s' =>
      if Ascii.eqb c sep then "" :: split s' sep
      else match split s' sep with
           | [] => [String c ""]
           | l :: ls => String c l :: ls
           end
  end.

(** [c in s] for a character [c] *)
Fixpoint contains (s : string) (c : ascii) : bool :=
  match s with
  | "" => false
  | String a s' => Ascii.eqb a c || contains s' c
  end.

(** [sep.join(xs)] *)
Definition join (sep : string) (xs : list string) : string := String.concat sep xs.

(** [s.startswith(p)] *)
Definition startswith (s p : string) : bool := String.prefix p s.

(** [s.endswith(p)]: some tail of [s] is [p]. *)
Fixpoint endswith (s p : string) : bool :=
  String.eqb s p
  || match s with
     | "" => false
     | String _ s' => endswith s' p
     end.

(** [str(n)] for a length. *)
Definition str_of_nat (n : nat) : string := NilEmpty.string_of_uint (Nat.to_uint n).

(** A value of type [Any] as a JSON-decoded argument can be. *)
#[warnings="-register-all"] Inductive value :=
| PyNone
| PyBool (b : bool)
| PyInt (z : Z)
| PyFloat (x : float)
| PyStr (s : string)
| PyList (l : list value)
| PyDict (d : list (string * value)).

(** Truth value of an object, as [not x] and [if x] test it. *)
Definition truthy (v : value) : bool :=
  match v with
  | PyNone => false
  | PyBool b => b
  | PyInt z => negb (z =? 0)
  | PyFloat x => negb (PrimFloat.eqb x 0%float)
  | PyStr s => negb (String.eqb s "")
  | PyList l => match l with [] => false | _ => true end
  | PyDict d => match d with [] => false | _ => true end
  end.

(** [type(v).__name__] *)
Definition type_name (v : value) : string :=
  match v with
  | PyNone => "NoneType"
  | PyBool _ => "bool"
  | PyInt _ => "int"
  | PyFloat _ => "float"
  | PyStr _ => "str"
  | PyList _ => "list"
  | PyDict _ => "dict"
  end.

End Py.

(** ** The operating system and the effects of a computation *)

Module OS.

(** A raised exception: its class and [str(e)].  Every exception of the
    model is an instance of [Exception]. *)
Record exn := Exn { exn_class : string; exn_str : string }.

(** [subprocess.CompletedProcess], with [text=True] and captured output. *)
Record CompletedProcess := {
  args : list string;
  returncode : Z;
  stdout : string;
  stderr : string
}.

(** What the process environment answers.
    - [userhome]: the home directory, [$HOME] or else the password-file
      entry of the user; [None] when neither is there.
    - [getpwnam]: the home directory of a named user.
    - [spawn]: [subprocess.run(cmd, capture_output=True, text=True)], which
      raises when the program cannot be started or its output cannot be
      decoded, and otherwise returns whatever exit status.
    - [exists]: [os.path.exists].
    - [read_text]: [open(p, "r", encoding="utf-8")] followed by [read()]. *)
Record World := {
  userhome : option string;
  getpwnam : string → option string;
  spawn : list string → exn + CompletedProcess;
  exists_ : string → bool;
  read_text : string → exn + string
}.

(** The system calls a computation makes, in order. *)
Inductive event :=
| Spawn (cmd : list string)
| Exists (path : string)
| Open (path : string).

Inductive outcome (A : Type) :=
| Returns (a : A)
| Raises (e : exn).
Global Arguments Returns {A} a.
Global Arguments Raises {A} e.

(** A computation: trace of system calls and outcome, given the world. *)
Definition io (A : Type) : Type := World → list event * outcome A.

Definition ret {A} (a : A) : io A := λ _, ([], Returns a).
Definition raise {A} (e : exn) : io A := λ _, ([], Raises e).
Definition bind {A B} (m : io A) (k : A → io B) : io B := λ w,
  match m w with
  | (t, Returns a) => let '(t', r) := k a w in (t ++ t', r)
  | (t, Raises e) => (t, Raises e)
  end.
(** [try: m  except Exception as e: h e] *)
Definition try_except {A} (m : io A) (h : exn → io A) : io A := λ w,
  match m w with
  | (t, Returns a) => (t, Returns a)
  | (t, Raises e) => let '(t', r) := h e w in (t ++ t', r)
  end.

Global Instance io_ret : MRet io := @ret.
Global Instance io_bind : MBind io := λ A B k m, bind m k.

Definition ask {A} (f : World → A) : io A := λ w, ([], Returns (f w)).

Definition os_path_exists (p : string) : io bool :=
  λ w, ([Exists p], Returns (exists_ w p)).

Definition open_read (p : string) : io string :=
  λ w, ([Open p], match read_text w p with inl e => Raises e | inr s => Returns s end).

Definition subprocess_run (cmd : list string) : io CompletedProcess :=
  λ w, ([Spawn cmd], match spawn w cmd with inl e => Raises e | inr r => Returns r end).

Definition trace {A} (m : io A) (w : World) : list event := fst (m w).
Definition result {A} (m : io A) (w : World) : outcome A := snd (m w).

(** [posixpath.join(a, b)] *)
Definition os_path_join (a b : string) : string :=
  if Py.startswith b "/" then b
  else if String.eqb a "" || Py.endswith a "/" then a +:+ b
  else a +:+ "/" +:+ b.

(** [path] cut before its first ["/"]: [(path[:i], path[i:])], where [i] is
    [path.find("/")], or [len(path)] when there is none. *)
Fixpoint cut_at_sep (path : string) : string * string :=
  match path with
  | "" => ("", "")
  | String c s' =>
      if Ascii.eqb c "/" then ("", path)
      else let '(name, rest) := cut_at_sep s' in (String c name, rest)
  end.

(** [posixpath.expanduser(path)] *)
Definition expanduser (w : World) (path : string) : string :=
  match path with
  | String "~" tail =>
      let '(name, rest) := cut_at_sep tail in
      let home := if String.eqb name "" then userhome w else getpwnam w name in
      match home with
      | None => path
      | Some h =>
          let r := Py.rstrip_sep h +:+ rest in
          if String.eqb r "" then "/" else r
      end
  | _ => path
  end.

Definition os_path_expanduser (path : string) : io string :=
  ask (λ w, expanduser w path).

End OS.

(** ** The program: [src/main.py] *)

Module Main.
Import OS.

(** [mcp.types.TextContent] *)
Record TextContent := { type : string; text : string }.

(** types of the tool-call interface *)
Abbreviation ArgMap := (gmap string Py.value).
Abbreviation ToolResponse := (list TextContent).

Definition run_git_command (args : list string) : io CompletedProcess :=
  git_dir ← os_path_expanduser "~/.cfg";
  work_tree ← os_path_expanduser "~";
  let cmd := ["git"; "--git-dir=" +:+ git_dir; "--work-tree=" +:+ work_tree] ++ args in
  subprocess_run cmd.

(** The command line [run_git_command] builds in world [w]. *)
Definition git_command (w : World) (args : list string) : list string :=
  ["git"; "--git-dir=" +:+ expanduser w "~/.cfg"; "--work-tree=" +:+ expanduser w "~"]
    ++ args.

Definition list_dotfiles : io (list string) :=
  result ← run_git_command ["ls-files"];
  if negb (returncode result =? 0) then mret []
  else mret (map Py.strip
               (List.filter (λ f, Py.truthy (Py.PyStr (Py.strip f)))
                  (Py.split (stdout result) Py.nl_char))).

Definition get_file_content (filepath : string) : io string :=
  home ← os_path_expanduser "~";
  let full_path := os_path_join home filepath in
  found ← os_path_exists full_path;
  if negb found then mret ("File not found: " +:+ filepath)
  else
    try_except (open_read full_path)
               (λ e, mret ("Error reading file: " +:+ exn_str e)).

(** The [TypeError] with which [os.path.join], the first thing
    [get_file_content] does, rejects an argument that is not a [str]. *)
Definition join_type_error (v : Py.value) : exn :=
  Exn "TypeError"
      ("join() argument must be str, bytes, or os.PathLike object, not '"
         +:+ Py.type_name v +:+ "'").

Definition call_tool (name : string) (arguments : ArgMap) : io ToolResponse :=
  if String.eqb name "list_dotfiles" then
    files ← list_dotfiles;
    let text :=
      match files with
      | [] => "No dotfiles found or git repository not accessible."
      | _ => "Found " +:+ Py.str_of_nat (length files) +:+ " dotfiles:" +:+ Py.nl +:+ Py.nl
             +:+ Py.join Py.nl files
      end in
    mret [{| type := "text"; text := text |}]
  else if String.eqb name "get_dotfile_content" then
    let filepath := default (Py.PyStr "") (arguments !! "filepath") in
    if negb (Py.truthy filepath) then
      mret [{| type := "text"; text := "Error: filepath is required" |}]
    else
      (* get_file_content(filepath): its first statement joins the home
         directory and [filepath], which raises for anything but a [str] *)
      match filepath with
      | Py.PyStr filepath =>
          content ← get_file_content filepath;
          mret [{| type := "text";
                   text := "Content of " +:+ filepath +:+ ":" +:+ Py.nl +:+ Py.nl +:+ content |}]
      | v => raise (join_type_error v)
      end
  else
    mret [{| type := "text"; text := "Unknown tool: " +:+ name |}].

End Main.

(** ** Where a path leads *)

Module Path.

(** A location is the list of directory-entry names from the root.  The
    kernel walks a path one component at a time: an empty component and
    ["."] stay in place, [".."] goes to the parent (the root is its own
    parent), a name goes down.  Symbolic links are left aside.  The walk
    keeps the location innermost name first. *)
Definition walk_step (loc : list string) (c : string) : list string :=
  if String.eqb c "" || String.eqb c "." then loc
  else if String.eqb c ".." then tail loc
  else c :: loc.

(** The location of [p] for a process whose working directory is [cwd]. *)
Definition resolve (cwd : list string) (p : string) : list string :=
  rev (fold_left walk_step (Py.split p "/")
         (if Py.startswith p "/" then [] else rev cwd)).

(** A directory-entry name: not empty, not ["."] or [".."], no ["/"]. *)
Definition is_name (c : string) : bool :=
  negb (String.eqb c "") && negb (String.eqb c ".") && negb (String.eqb c "..")
  && negb (Py.contains c "/").

(** The relative path that goes [n] directories up and then down [target]. *)
Definition climb (n : nat) (target : list string) : string :=
  Py.join "/" (repeat ".." n ++ target).

End Path.

(** ** The specification's wording of the queries *)

Module Spec.
Import OS.

(** First and last character of a string. *)
Definition first (s : string) : option ascii :=
  match s with
  | "" => None
  | String c _ => Some c
  end.

Fixpoint last (s : string) : option ascii :=
  match s with
  | "" => None
  | String c "" => Some c
  | String _ s' => last s'
  end.

(** A non-empty string with no whitespace at either end. *)
Definition trimmed (s : string) : Prop :=
  ∃ c d, first s = Some c ∧ last s = Some d
         ∧ Py.isspace c = false ∧ Py.isspace d = false.

(** Section 4.2, [listTrackedFiles]: a non-zero exit status gives the empty
    sequence; otherwise standard output is split on newlines, each line is
    trimmed, and the empty lines are dropped, in the order of the output. *)
Definition listTrackedFiles (r : CompletedProcess) : list string :=
  if decide (returncode r = 0) then
    List.filter (λ l, negb (String.eqb l ""))
      (map Py.strip (Py.split (stdout r) Py.nl_char))
  else [].

(** Section 4.4 and 6, the text of a [list_dotfiles] response: a header
    stating the count, a blank line, one path per line. *)
Definition found_header (files : list string) : string :=
  "Found " +:+ Py.str_of_nat (length files) +:+ " dotfiles:".

Definition found_text (files : list string) : string :=
  found_header files +:+ Py.nl +:+ Py.nl +:+ Py.join Py.nl files.

Definition no_dotfiles_text : string :=
  "No dotfiles found or git repository not accessible.".

(** The one-segment response carrying [t]. *)
Definition text_response (t : string) : Main.ToolResponse :=
  [{| Main.type := "text"; Main.text := t |}].

End Spec.

(** ** Sample environments *)

Module Sample.
Import OS.

Definition lookup_file (files : list (list string * string)) (p : string) : option string :=
  snd <$> List.find (λ kv, bool_decide (fst kv = Path.resolve [] p)) files.

(** A machine whose user lives in [home], with the given files on disk (each
    at its location) and the given behaviour of [git]; paths are resolved
    from the root directory. *)
Definition machine (home : string) (files : list (list string * string))
    (git : exn + (Z * string)) : World :=
  {| userhome := Some home;
     getpwnam := λ _, None;
     spawn := λ cmd,
       match git with
       | inl e => inl e
       | inr (rc, out) => inr {| args := cmd; returncode := rc; stdout := out; stderr := "" |}
       end;
     exists_ := λ p, bool_decide (is_Some (lookup_file files p));
     read_text := λ p,
       match lookup_file files p with
       | Some c => inr c
       | None => inl (Exn "FileNotFoundError" ("[Errno 2] No such file or directory: '" +:+ p +:+ "'"))
       end |}.

Definition disk : list (list string * string) :=
  [(["home"; "u"; ".bashrc"], "export X=1" +:+ Py.nl);
   (["home"; "u"; "notes.txt"], "untracked");
   (["etc"; "passwd"], "root:x:0:0:root:/root:/bin/sh" +:+ Py.nl)].

Definition ls_files_output : string :=
  ".bashrc" +:+ Py.nl +:+ "  .vimrc " +:+ Py.nl +:+ Py.nl +:+ ".config/nvim/init.lua" +:+ Py.nl.

(** git works and tracks three files. *)
Definition w_ok : World := machine "/home/u" disk (inr (0, ls_files_output)).
(** No repository under [~/.cfg]: git exits with status 128. *)
Definition w_norepo : World := machine "/home/u" disk (inr (128, "")).
(** No git executable on the search path. *)
Definition w_nogit : World :=
  machine "/home/u" disk
    (inl (Exn "FileNotFoundError" "[Errno 2] No such file or directory: 'git'")).

End Sample.

(** ** Files as bytes: what reading in text mode hands back *)

Module TextFile.
Import OS.

(** ["\r"] *)
Definition cr_char : ascii := "013"%char.

(** Reading with the default [newline=None]: the line ends "\r\n" and
    "\r" of the decoded text arrive as "\n". *)
Fixpoint universal_newlines (s : string) : string :=
  match s with
  | "" => ""
  | String c s' =>
      if Ascii.eqb c cr_char then
        match s' with
        | String d s'' =>
            if Ascii.eqb d Py.nl_char then String Py.nl_char (universal_newlines s'')
            else String Py.nl_char (universal_newlines s')
        | "" => String Py.nl_char ""
        end
      else String c (universal_newlines s')
  end.

Definition between (lo hi b : N) : bool := (lo <=? b)%N && (b <=? hi)%N.

(** A continuation byte, [10xxxxxx]. *)
Definition continuation (b : N) : bool := between 128 191 b.

(** Strict UTF-8 decoding of bytes into code points; [None] is a
    [UnicodeDecodeError] (a stray or missing continuation byte, an overlong
    form, a surrogate, a value above U+10FFFF). *)
Fixpoint utf8_decode (bs : list N) : option (list N) :=
  match bs with
  | [] => Some []
  | b1 :: t1 =>
      if (b1 <? 128)%N then cons b1 <$> utf8_decode t1
      else if between 194 223 b1 then
        match t1 with
        | b2 :: t2 =>
            if continuation b2
            then cons ((b1 - 192) * 64 + (b2 - 128))%N <$> utf8_decode t2
            else None
        | _ => None
        end
      else if between 224 239 b1 then
        match t1 with
        | b2 :: b3 :: t3 =>
            if between (if (b1 =? 224)%N then 160 else 128)
                       (if (b1 =? 237)%N then 159 else 191) b2
               && continuation b3
            then cons ((b1 - 224) * 4096 + (b2 - 128) * 64 + (b3 - 128))%N
                   <$> utf8_decode t3
            else None
        | _ => None
        end
      else if between 240 244 b1 then
        match t1 with
        | b2 :: b3 :: b4 :: t4 =>
            if between (if (b1 =? 240)%N then 144 else 128)
                       (if (b1 =? 244)%N then 143 else 191) b2
               && continuation b3 && continuation b4
            then cons ((b1 - 240) * 262144 + (b2 - 128) * 4096
                       + (b3 - 128) * 64 + (b4 - 128))%N
                   <$> utf8_decode t4
            else None
        | _ => None
        end
      else None
  end.

(** The [str] of the model made of these code points, when each is below
    256. *)
Fixpoint to_str (cps : list N) : option string :=
  match cps with
  | [] => Some ""
  | c :: r => if (c <? 256)%N then String (ascii_of_N c) <$> to_str r else None
  end.

(** [raw.decode("utf-8")], for the texts of the model. *)
Definition decode (raw : list Byte.byte) : option string :=
  utf8_decode (map Byte.to_N raw) ≫= to_str.



(** A machine as [Sample.machine], its files given by their bytes;
    [read_text] is the reading in text mode of these bytes. *)
Definition machine (home : string) (files : list (list string * list Byte.byte))
    (git : exn + (Z * string)) : World :=
  let found p := snd <$> List.find (λ kv, bool_decide (fst kv = Path.resolve [] p)) files in
  {| userhome := Some home;
     getpwnam := λ _, None;
     spawn := λ cmd,
       match git with
       | inl e => inl e
       | inr (rc, out) => inr {| args := cmd; returncode := rc; stdout := out; stderr := "" |}
       end;
     exists_ := λ p, bool_decide (is_Some (found p));
     read_text := λ p,
       match found p with
       | Some raw =>
           match decode raw with
           | Some content => inr (universal_newlines content)
           | None => inl (Exn "UnicodeDecodeError" "'utf-8' codec can't decode")
           end
       | None => inl (Exn "FileNotFoundError" ("[Errno 2] No such file or directory: '" +:+ p +:+ "'"))
       end |}.



End TextFile.

(** ** The tool registry: [list_tools] *)

Module Tools.

(** [mcp.types.Tool] *)
Record Tool := { name : string; description : string; inputSchema : Py.value }.

(** The coroutine [list_tools] makes no call of its own and returns this
    list. *)
Definition list_tools : list Tool :=
  [ {| name := "list_dotfiles";
       description := "List all dotfiles managed by the repository";
       inputSchema := Py.PyDict [("type", Py.PyStr "object"); ("properties", Py.PyDict [])] |};
    {| name := "get_dotfile_content";
       description := "Get the content of a specific dotfile";
       inputSchema :=
         Py.PyDict
           [("type", Py.PyStr "object");
            ("properties",
             Py.PyDict
               [("filepath",
                 Py.PyDict [("type", Py.PyStr "string");
                            ("description", Py.PyStr "Path to the dotfile")])]);
            ("required", Py.PyList [Py.PyStr "filepath"])] |} ].

(** [d.get(k)] on a dict literal. *)
Definition dict_get (d : list (string * Py.value)) (k : string) : option Py.value :=
  snd <$> List.find (λ kv, String.eqb (fst kv) k) d.

(** The keys an input schema lists under "required". *)
Definition required_keys (schema : Py.value) : list string :=
  match schema with
  | Py.PyDict d =>
      match dict_get d "required" with
      | Some (Py.PyList ks) =>
          omap (λ k, match k with Py.PyStr s => Some s | _ => None end) ks
      | _ => []
      end
  | _ => []
  end.

(** The keys an input schema declares under "properties" with type
    "string". *)
Definition string_keys (schema : Py.value) : list string :=
  match schema with
  | Py.PyDict d =>
      match dict_get d "properties" with
      | Some (Py.PyDict ps) =>
          omap (λ kv, match snd kv with
                      | Py.PyDict p =>
                          match dict_get p "type" with
                          | Some (Py.PyStr "string") => Some (fst kv)
                          | _ => None
                          end
                      | _ => None
                      end) ps
      | _ => []
      end
  | _ => []
  end.

(** The part of JSON Schema validation that these input schemas use: every
    required key is there, and a key declared a string holds a [str] when it
    is there. *)
Definition conforms (schema : Py.value) (arguments : gmap string Py.value) : Prop :=
  (∀ k, In k (required_keys schema) → is_Some (arguments !! k))
  ∧ (∀ k v, In k (string_keys schema) → arguments !! k = Some v → ∃ s, v = Py.PyStr s).

End Tools.

(** ** The bootstrap: the [try] statement of [main] *)

Module Bootstrap.
Import OS.

(** What a call raises: an instance of [Exception], which [except Exception]
    catches, or another [BaseException] (a cancellation, [KeyboardInterrupt],
    [SystemExit]), which it lets through. *)
Inductive raised :=
| Error (e : exn)
| Base (e : exn).

(** The value passed as [capabilities]. *)
Inductive caps_arg :=
| FromApp (c : Py.value)
| EmptyDict.

(** The keyword arguments of a call of [InitializationOptions]. *)
Record init_args := {
  server_name : option string;
  server_version : option string;
  capabilities : option caps_arg
}.

(** What the protocol host answers.
    - [get_capabilities]: [app.get_capabilities(None, None)].
    - [construct]: [InitializationOptions(...)]; [None] when the object is
      built.
    - [app_run]: [await app.run(read_stream, write_stream, options)] in the
      method of the given number; [None] when it returns. *)
Record Host := {
  get_capabilities : raised + Py.value;
  construct : init_args → option raised;
  app_run : nat → init_args → option raised
}.

Inductive call :=
| GetCapabilities
| Construct (a : init_args)
| Run (a : init_args).

Definition named (c : caps_arg) : init_args :=
  {| server_name := Some "dotfiles-server";
     server_version := Some "1.0.0";
     capabilities := Some c |}.

Definition minimal : init_args :=
  {| server_name := None; server_version := None; capabilities := None |}.

(** Build the options from [a], then run the server with them. *)
Definition init_and_run (h : Host) (method : nat) (a : init_args)
  : list call * option raised :=
  match construct h a with
  | Some x => ([Construct a], Some x)
  | None => ([Construct a; Run a], app_run h method a)
  end.

(** Lines 98 to 117: the calls made, and what is raised, if anything. *)
Definition main_try (h : Host) : list call * option raised :=
  let method1 :=
    match get_capabilities h with
    | inl x => ([GetCapabilities], Some x)
    | inr c =>
        let '(t, r) := init_and_run h 1 (named (FromApp c)) in
        (GetCapabilities :: t, r)
    end in
  match method1 with
  | (t1, Some (Error e1)) =>
      match init_and_run h 2 (named EmptyDict) with
      | (t2, Some (Error e2)) =>
          let '(t3, r3) := init_and_run h 3 minimal in
          (t1 ++ t2 ++ t3, r3)
      | (t2, r2) => (t1 ++ t2, r2)
      end
  | _ => method1
  end.

(** The runs of the server among the calls, in order. *)
Definition runs (t : list call) : list init_args :=
  omap (λ c, match c with Run a => Some a | _ => None end) t.

End Bootstrap.

(** ** Lines of git output, and more sample environments *)

Module Lines.
Import OS.

(** Whitespace only (possibly nothing). *)
Fixpoint blank (s : string) : bool :=
  match s with
  | "" => true
  | String c s' => Py.isspace c && blank s'
  end.

(** A line of output: padding, a path or nothing, padding. *)
Record line := { before : string; path : string; after : string }.

Definition render (l : line) : string := before l +:+ path l +:+ after l.

(** A line as [subprocess.run] with [text=True] delivers it: within one line
    there is no newline, and no carriage return either, since text mode has
    turned every carriage return of the process into a newline. *)
Definition well_formed (l : line) : Prop :=
  blank (before l) = true ∧ blank (after l) = true
  ∧ (path l = "" ∨ Spec.trimmed (path l))
  ∧ Py.contains (render l) Py.nl_char = false
  ∧ Py.contains (render l) TextFile.cr_char = false.

(** git lists two files, one on a line padded with spaces and a tab, and
    ends with an empty line. *)
Definition padded_output : string :=
  ".bashrc" +:+ Py.nl +:+ "  .vimrc " +:+ String "009" "" +:+ Py.nl.

Definition w_padded : World := Sample.machine "/home/u" Sample.disk (inr (0, padded_output)).

(** git fails (status 1) after printing something. *)
Definition w_failed : World :=
  Sample.machine "/home/u" Sample.disk (inr (1, ".bashrc" +:+ Py.nl)).

(** [~/.config] is a directory: it exists and cannot be read as a file. *)
Definition w_dir : World :=
  {| userhome := Some "/home/u";
     getpwnam := λ _, None;
     spawn := λ cmd, inr {| args := cmd; returncode := 0; stdout := ""; stderr := "" |};
     exists_ := λ p, String.eqb p "/home/u/.config";
     read_text := λ p,
       inl (Exn "IsADirectoryError" ("[Errno 21] Is a directory: '" +:+ p +:+ "'")) |}.


(** A host whose first method fails at once, whose second runs and fails,
    and whose third cannot build its options. *)
Definition h_failing : Bootstrap.Host :=
  {| Bootstrap.get_capabilities :=
       inl (Bootstrap.Error (Exn "AttributeError" "'NoneType' object has no attribute 'tools_changed'"));
     Bootstrap.construct := λ a,
       match Bootstrap.server_name a with
       | Some _ => None
       | None => Some (Bootstrap.Error (Exn "ValidationError" "3 validation errors for InitializationOptions"))
       end;
     Bootstrap.app_run := λ _ _, Some (Bootstrap.Error (Exn "RuntimeError" "connection closed")) |}.

(** A host whose first method is cancelled while the server runs. *)
Definition h_cancelled : Bootstrap.Host :=
  {| Bootstrap.get_capabilities := inr (Py.PyDict []);
     Bootstrap.construct := λ _, None;
     Bootstrap.app_run := λ _ _, Some (Bootstrap.Base (Exn "CancelledError" "")) |}.

End Lines.

(** * Properties *)

Import OS Main.

(** In the proofs, [simpl] may compute string concatenation. *)
Local Arguments String.append !_ _ / : simpl nomatch.

(** ** Running the computations *)

Section Runs.
Context (w : World).

Lemma run_git_command_eq (args : list string) :
  run_git_command args w =
  ([Spawn (git_command w args)],
   match spawn w (git_command w args) with
   | inl e => Raises e
   | inr r => Returns r
   end).
Proof. reflexivity. Qed.

Lemma list_dotfiles_eq :
  list_dotfiles w =
  ([Spawn (git_command w ["ls-files"])],
   match spawn w (git_command w ["ls-files"]) with
   | inl e => Raises e
   | inr r =>
       Returns (if negb (returncode r =? 0) then []
                else map Py.strip
                       (List.filter (λ f, negb (String.eqb (Py.strip f) ""))
                          (Py.split (stdout r) Py.nl_char)))
   end).
Proof.
  unfold list_dotfiles, mbind, io_bind, bind.
  rewrite run_git_command_eq.
  destruct (spawn w _) as [e|r]; [reflexivity|].
  destruct (negb (returncode r =? 0)); reflexivity.
Qed.

Lemma get_file_content_eq (filepath : string) :
  get_file_content filepath w =
  let p := os_path_join (expanduser w "~") filepath in
  if exists_ w p then
    ([Exists p; Open p],
     Returns match read_text w p with
             | inl e => "Error reading file: " +:+ exn_str e
             | inr c => c
             end)
  else ([Exists p], Returns ("File not found: " +:+ filepath)).
Proof.
  unfold get_file_content, mbind, io_bind, bind, try_except. simpl.
  destruct (exists_ w _); simpl; [|reflexivity].
  destruct (read_text w _); reflexivity.
Qed.

End Runs.

(** ** The model on concrete inputs *)

Section Checks.
Import Py.

Example split_keeps_empty_pieces :
  split ("a" +:+ nl +:+ nl +:+ "b" +:+ nl) nl_char = ["a"; ""; "b"; ""]
  ∧ split "" nl_char = [""].
Proof. split; reflexivity. Qed.

Example strip_both_ends :
  strip (String "009" " .vimrc  " +:+ String "013" "") = ".vimrc"
  ∧ strip "a b" = "a b" ∧ strip "   " = "".
Proof. repeat split. Qed.

Example truthy_values :
  map truthy [PyNone; PyBool false; PyInt 0; PyFloat 0; PyStr ""; PyList []; PyDict []]
  = [false; false; false; false; false; false; false]
  ∧ map truthy [PyBool true; PyInt 7; PyFloat 0.5; PyStr "0"; PyList [PyNone]]
    = [true; true; true; true; true].
Proof. split; reflexivity. Qed.

Example join_cases :
  os_path_join "/home/u" ".bashrc" = "/home/u/.bashrc"
  ∧ os_path_join "/home/u" ".config/nvim/init.lua" = "/home/u/.config/nvim/init.lua"
  ∧ os_path_join "/" "etc" = "/etc"
  ∧ os_path_join "/home/u" "../v/.bashrc" = "/home/u/../v/.bashrc"
  ∧ os_path_join "/home/u" "/etc/passwd" = "/etc/passwd".
Proof. repeat split. Qed.

Example expanduser_cases :
  expanduser Sample.w_ok "~" = "/home/u"
  ∧ expanduser Sample.w_ok "~/.cfg" = "/home/u/.cfg"
  ∧ expanduser (Sample.machine "/home/u//" [] (inr (0, ""))) "~/.cfg" = "/home/u/.cfg"
  ∧ expanduser (Sample.machine "/" [] (inr (0, ""))) "~" = "/"
  ∧ expanduser Sample.w_ok "~nobody/x" = "~nobody/x".
Proof. repeat split. Qed.

Example git_command_line :
  trace (run_git_command ["ls-files"]) Sample.w_ok
  = [Spawn ["git"; "--git-dir=/home/u/.cfg"; "--work-tree=/home/u"; "ls-files"]].
Proof. reflexivity. Qed.

Example list_dotfiles_nonzero_exit :
  result list_dotfiles Sample.w_norepo = Returns [].
Proof. reflexivity. Qed.

Example get_file_content_is_a_directory :
  let w := {| userhome := Some "/home/u"; getpwnam := λ _, None;
              spawn := λ _, inl (Exn "OSError" "");
              exists_ := λ _, true;
              read_text := λ _, inl (Exn "IsADirectoryError"
                                       "[Errno 21] Is a directory: '/home/u/.config'") |} in
  get_file_content ".config" w
  = ([Exists "/home/u/.config"; Open "/home/u/.config"],
     Returns "Error reading file: [Errno 21] Is a directory: '/home/u/.config'").
Proof. reflexivity. Qed.

Example call_tool_filepath_not_a_string :
  call_tool "get_dotfile_content" {[ "filepath" := PyInt 5 ]} Sample.w_ok
  = ([], Raises (Exn "TypeError"
                   "join() argument must be str, bytes, or os.PathLike object, not 'int'")).
Proof. reflexivity. Qed.

Example call_tool_filepath_falsy :
  result (call_tool "get_dotfile_content" {[ "filepath" := PyInt 0 ]}) Sample.w_ok
  = Returns (Spec.text_response "Error: filepath is required").
Proof. reflexivity. Qed.

End Checks.

(** ** Facts about the string built-ins *)

Section StrFacts.
Implicit Types (s a b : string) (c sep : ascii) (p : ascii → bool).

Lemma app_empty_r s : s +:+ "" = s.
Proof. induction s as [|c s IH]; simpl; [reflexivity | by rewrite IH]. Qed.

Lemma app_assoc' a b s : (a +:+ b) +:+ s = a +:+ (b +:+ s).
Proof. induction a as [|c a IH]; simpl; [reflexivity | by rewrite IH]. Qed.

Lemma split_not_nil s sep : Py.split s sep ≠ [].
Proof.
  destruct s as [|c s]; simpl; [discriminate|].
  destruct (Ascii.eqb c sep); [discriminate|].
  destruct (Py.split s sep); discriminate.
Qed.

Lemma split_sep_cons s sep : Py.split (String sep s) sep = "" :: Py.split s sep.
Proof. simpl. by rewrite Ascii.eqb_refl. Qed.

(** Splitting distributes over a separator. *)
Lemma split_app_sep a b sep :
  Py.split (a +:+ String sep b) sep = Py.split a sep ++ Py.split b sep.
Proof.
  induction a as [|c a IH]; simpl.
  - by rewrite Ascii.eqb_refl.
  - destruct (Ascii.eqb c sep); [by rewrite IH|].
    rewrite IH. pose proof (split_not_nil a sep) as Hne.
    destruct (Py.split a sep); [done | reflexivity].
Qed.

Lemma split_no_sep s sep : Py.contains s sep = false → Py.split s sep = [s].
Proof.
  induction s as [|c s IH]; simpl; [reflexivity|].
  intros [Hc Hs]%orb_false_iff. rewrite Hc, (IH Hs). reflexivity.
Qed.

(** No piece of a split holds the separator. *)
Lemma split_pieces s sep : Forall (λ l, Py.contains l sep = false) (Py.split s sep).
Proof.
  induction s as [|c s IH]; simpl.
  - by repeat constructor.
  - destruct (Ascii.eqb c sep) eqn:Hc; [by constructor|].
    destruct (Py.split s sep) as [|l ls]; [by repeat constructor; simpl; rewrite Hc|].
    inversion_clear IH as [|? ? Hl Hls]. constructor; [|done].
    simpl. by rewrite Hc, Hl.
Qed.

(** Joining the pieces with the separator gives the string back. *)
Lemma join_split s sep : Py.join (String sep "") (Py.split s sep) = s.
Proof.
  unfold Py.join. induction s as [|c s IH]; simpl; [reflexivity|].
  destruct (Ascii.eqb c sep) eqn:Hc.
  - apply Ascii.eqb_eq in Hc as ->.
    pose proof (split_not_nil s sep).
    destruct (Py.split s sep) as [|l ls] eqn:E; [done|].
    simpl in *. by rewrite IH.
  - destruct (Py.split s sep) as [|l ls] eqn:E; [by destruct (split_not_nil s sep)|].
    destruct ls; simpl in *; by rewrite <- IH.
Qed.

(** Splitting a join of separator-free pieces gives the pieces back. *)
Lemma split_join (xs : list string) sep :
  xs ≠ [] → Forall (λ l, Py.contains l sep = false) xs →
  Py.split (Py.join (String sep "") xs) sep = xs.
Proof.
  unfold Py.join. induction xs as [|x xs IH]; [done|]. intros _ Hall.
  inversion_clear Hall as [|? ? Hx Hxs].
  destruct xs as [|y ys].
  - simpl. by apply split_no_sep.
  - change (String.concat (String sep "") (x :: y :: ys))
      with (x +:+ String sep (String.concat (String sep "") (y :: ys))).
    rewrite split_app_sep, (split_no_sep _ _ Hx), IH; done.
Qed.

Lemma first_lstrip p s c : Spec.first (Py.lstrip_by p s) = Some c → p c = false.
Proof.
  induction s as [|a s IH]; simpl; [discriminate|].
  destruct (p a) eqn:Ha; [done|]. simpl. by intros [= <-].
Qed.

Lemma last_rstrip p s d : Spec.last (Py.rstrip_by p s) = Some d → p d = false.
Proof.
  revert d. induction s as [|a s IH]; simpl; [discriminate|]. intros d.
  destruct (Py.rstrip_by p s) as [|b r] eqn:E.
  - destruct (p a) eqn:Ha; simpl; [discriminate|]. by intros [= <-].
  - intros H. apply IH. exact H.
Qed.

Lemma first_rstrip p s c :
  Spec.first s = Some c → p c = false → Spec.first (Py.rstrip_by p s) = Some c.
Proof.
  destruct s as [|a s]; simpl; [discriminate|]. intros [= ->] Hc.
  destruct (Py.rstrip_by p s); [by rewrite Hc|reflexivity].
Qed.

Lemma first_last_some s c : Spec.first s = Some c → is_Some (Spec.last s).
Proof.
  revert c. induction s as [|a s IH]; simpl; [discriminate|]. intros c _.
  destruct s as [|b s]; [by eexists|]. by apply (IH b).
Qed.

(** A stripped string is empty or has no whitespace at either end. *)
Lemma strip_trimmed s : Py.strip s ≠ "" → Spec.trimmed (Py.strip s).
Proof.
  unfold Py.strip. intros Hne.
  destruct (Py.lstrip_by Py.isspace s) as [|c t] eqn:E; [done|].
  assert (Py.isspace c = false) as Hc by (apply (first_lstrip _ s); by rewrite E).
  assert (Spec.first (Py.rstrip_by Py.isspace (String c t)) = Some c) as Hf
    by by apply first_rstrip.
  destruct (first_last_some _ _ Hf) as [d Hd].
  exists c, d. repeat split; [done..|]. by apply last_rstrip in Hd.
Qed.

End StrFacts.

(** ** The three branches of the dispatcher *)

(** The text the code builds is header, blank line, paths. *)
Lemma found_text_code (files : list string) :
  "Found " +:+ Py.str_of_nat (length files) +:+ " dotfiles:" +:+ Py.nl +:+ Py.nl
    +:+ Py.join Py.nl files
  = Spec.found_text files.
Proof.
  unfold Spec.found_text, Spec.found_header.
  by rewrite !app_assoc'.
Qed.

Section Dispatch.
Context (w : World).
Implicit Types (name : string) (arguments : ArgMap).

Lemma call_tool_list arguments :
  call_tool "list_dotfiles" arguments w =
  (trace list_dotfiles w,
   match result list_dotfiles w with
   | Returns files =>
       Returns (Spec.text_response
                  match files with
                  | [] => Spec.no_dotfiles_text
                  | _ => Spec.found_text files
                  end)
   | Raises e => Raises e
   end).
Proof.
  unfold call_tool, trace, result, mbind, io_bind, bind. simpl.
  destruct (list_dotfiles w) as [t [files|e]]; simpl; [|reflexivity].
  rewrite app_nil_r. destruct files; [reflexivity|]. by rewrite <- found_text_code.
Qed.

Lemma call_tool_get arguments :
  call_tool "get_dotfile_content" arguments w =
  let filepath := default (Py.PyStr "") (arguments !! "filepath") in
  if negb (Py.truthy filepath) then
    ([], Returns (Spec.text_response "Error: filepath is required"))
  else
    match filepath with
    | Py.PyStr filepath =>
        (trace (get_file_content filepath) w,
         match result (get_file_content filepath) w with
         | Returns content =>
             Returns (Spec.text_response
                        ("Content of " +:+ filepath +:+ ":" +:+ Py.nl +:+ Py.nl +:+ content))
         | Raises e => Raises e
         end)
    | v => ([], Raises (join_type_error v))
    end.
Proof.
  unfold call_tool. simpl.
  destruct (negb (Py.truthy _)); [reflexivity|].
  destruct (default _ _) as [| | | |fp| |]; try reflexivity.
  unfold trace, result, mbind, io_bind, bind.
  destruct (get_file_content fp w) as [t [c|e]]; simpl; [|reflexivity].
  by rewrite app_nil_r.
Qed.

Lemma call_tool_other name arguments :
  name ≠ "list_dotfiles" → name ≠ "get_dotfile_content" →
  call_tool name arguments w =
  ([], Returns (Spec.text_response ("Unknown tool: " +:+ name))).
Proof.
  intros H1%String.eqb_neq H2%String.eqb_neq. unfold call_tool.
  by rewrite H1, H2.
Qed.

End Dispatch.

(** ** More on strings: characters kept out, and strings already trimmed *)

Section MoreStrFacts.
Implicit Types (s a b : string) (c : ascii) (p : ascii → bool).

Lemma contains_app a b c : Py.contains (a +:+ b) c = Py.contains a c || Py.contains b c.
Proof.
  induction a as [|x a IH]; simpl; [reflexivity|]. by rewrite IH, orb_assoc.
Qed.

Lemma contains_lstrip p s c : Py.contains s c = false → Py.contains (Py.lstrip_by p s) c = false.
Proof.
  induction s as [|x s IH]; simpl; [done|].
  intros [Hx Hs]%orb_false_iff. destruct (p x); [by apply IH|].
  simpl. by rewrite Hx, Hs.
Qed.

Lemma contains_rstrip p s c : Py.contains s c = false → Py.contains (Py.rstrip_by p s) c = false.
Proof.
  induction s as [|x s IH]; simpl; [done|].
  intros [Hx Hs]%orb_false_iff. specialize (IH Hs).
  destruct (Py.rstrip_by p s) as [|y r].
  - destruct (p x); simpl; [done|]. by rewrite Hx.
  - simpl in *. by rewrite Hx, IH.
Qed.

Lemma contains_strip s c : Py.contains s c = false → Py.contains (Py.strip s) c = false.
Proof. intros H. unfold Py.strip. by apply contains_rstrip, contains_lstrip. Qed.

(** A decimal numeral has no newline in it. *)
Lemma contains_str_of_nat n : Py.contains (Py.str_of_nat n) Py.nl_char = false.
Proof.
  unfold Py.str_of_nat. generalize (Nat.to_uint n) as u.
  induction u; simpl; done.
Qed.

Lemma rstrip_fixed p s d : Spec.last s = Some d → p d = false → Py.rstrip_by p s = s.
Proof.
  induction s as [|x s IH]; simpl; [done|]. intros Hl Hd.
  destruct s as [|y s].
  - simpl. injection Hl as ->. by rewrite Hd.
  - rewrite (IH Hl Hd). reflexivity.
Qed.

(** Stripping a trimmed string changes nothing. *)
Lemma strip_fixed s : Spec.trimmed s → Py.strip s = s.
Proof.
  intros (c & d & Hf & Hl & Hc & Hd). unfold Py.strip.
  destruct s as [|x s]; [done|]. simpl in Hf. injection Hf as ->.
  simpl Py.lstrip_by. rewrite Hc. by apply (rstrip_fixed _ _ d).
Qed.

Lemma trimmed_not_empty s : Spec.trimmed s → s ≠ "".
Proof. by intros (c & d & Hf & _) ->. Qed.

End MoreStrFacts.

(** ** [list_dotfiles] *)

Section ListDotfiles.
Implicit Types (r : CompletedProcess) (xs ls : list string).

(** The comprehension of the code filters and then trims; the specification
    trims and then drops.  They agree. *)
Lemma comprehension_trim_drop ls :
  map Py.strip (List.filter (λ f, negb (String.eqb (Py.strip f) "")) ls) =
  List.filter (λ l, negb (String.eqb l "")) (map Py.strip ls).
Proof.
  induction ls as [|l ls IH]; simpl; [reflexivity|].
  destruct (negb (String.eqb (Py.strip l) "")); simpl; by rewrite IH.
Qed.

Lemma trim_drop_pieces ls (Q : string → Prop) :
  (∀ l, l ∈ ls → Py.strip l ≠ "" → Q (Py.strip l)) →
  Forall Q (List.filter (λ l, negb (String.eqb l "")) (map Py.strip ls)).
Proof.
  induction ls as [|l ls IH]; intros H; simpl; [constructor|].
  assert (Forall Q (List.filter (λ l, negb (String.eqb l "")) (map Py.strip ls))) as IH'.
  { apply IH. intros l' Hl'. apply H. by right. }
  destruct (String.eqb (Py.strip l) "") eqn:E; simpl; [done|].
  constructor; [|done]. apply H; [by left|]. by apply String.eqb_neq.
Qed.

Lemma listTrackedFiles_trimmed r : Forall Spec.trimmed (Spec.listTrackedFiles r).
Proof.
  unfold Spec.listTrackedFiles. case_decide; [|constructor].
  apply trim_drop_pieces. intros l _. apply strip_trimmed.
Qed.

Lemma listTrackedFiles_one_line r :
  Forall (λ x, Py.contains x Py.nl_char = false) (Spec.listTrackedFiles r).
Proof.
  unfold Spec.listTrackedFiles. case_decide; [|constructor].
  apply trim_drop_pieces. intros l Hl _. apply contains_strip.
  pose proof (split_pieces (stdout r) Py.nl_char) as Hall.
  rewrite Forall_forall in Hall. by apply Hall.
Qed.

Lemma trim_drop_fixed xs :
  Forall Spec.trimmed xs →
  List.filter (λ l, negb (String.eqb l "")) (map Py.strip xs) = xs.
Proof.
  induction 1 as [|x xs Hx _ IH]; simpl; [reflexivity|].
  rewrite (strip_fixed _ Hx), IH.
  apply trimmed_not_empty, String.eqb_neq in Hx. by rewrite Hx.
Qed.

(** Output that is one trimmed path per line, each line ended by a newline,
    comes back as exactly those paths. *)
Lemma listTrackedFiles_lines r xs :
  returncode r = 0 →
  Forall (λ x, Spec.trimmed x ∧ Py.contains x Py.nl_char = false) xs →
  stdout r = Py.join Py.nl xs +:+ Py.nl →
  Spec.listTrackedFiles r = xs.
Proof.
  intros Hrc [Htrim Hnl]%Forall_and Hout. unfold Spec.listTrackedFiles.
  rewrite decide_True by done. rewrite Hout. unfold Py.nl.
  rewrite split_app_sep. simpl (Py.split "" _).
  destruct xs as [|x xs]; [reflexivity|].
  rewrite split_join by done.
  rewrite map_app, List.filter_app, trim_drop_fixed by done.
  simpl. by rewrite app_nil_r.
Qed.

Lemma list_dotfiles_result w r :
  spawn w (git_command w ["ls-files"]) = inr r →
  result list_dotfiles w = Returns (Spec.listTrackedFiles r).
Proof.
  intros Hrun. unfold result. rewrite list_dotfiles_eq, Hrun. simpl.
  unfold Spec.listTrackedFiles. rewrite comprehension_trim_drop.
  destruct (Z.eqb_spec (returncode r) 0) as [H0|H0]; simpl.
  - by rewrite decide_True.
  - by rewrite decide_False.
Qed.

End ListDotfiles.

(** C3.  Whatever git answers, [list_dotfiles] returns the empty list when
    the exit status is not zero; otherwise it returns the lines of standard
    output, split on newlines, trimmed, the empty ones dropped, in the order
    of the output.  Every path returned is non-empty with no whitespace at
    either end; and output made of trimmed paths, one per line, comes back
    as exactly those paths, neither sorted nor deduplicated. *)
Theorem list_dotfiles_spec (w : World) (r : CompletedProcess) :
  spawn w (git_command w ["ls-files"]) = inr r →
  result list_dotfiles w = Returns (Spec.listTrackedFiles r)
  ∧ (returncode r ≠ 0 → Spec.listTrackedFiles r = [])
  ∧ Forall Spec.trimmed (Spec.listTrackedFiles r)
  ∧ (∀ xs, returncode r = 0 →
       Forall (λ x, Spec.trimmed x ∧ Py.contains x Py.nl_char = false) xs →
       stdout r = Py.join Py.nl xs +:+ Py.nl →
       Spec.listTrackedFiles r = xs).
Proof.
  intros Hrun. split; [by apply list_dotfiles_result|].
  split; [|split].
  - intros Hrc. unfold Spec.listTrackedFiles. by rewrite decide_False.
  - apply listTrackedFiles_trimmed.
  - intros xs. apply listTrackedFiles_lines.
Qed.

Lemma list_dotfiles_spec_witness :
  result list_dotfiles Sample.w_ok
  = Returns [".bashrc"; ".vimrc"; ".config/nvim/init.lua"].
Proof.
  exact (proj1 (list_dotfiles_spec Sample.w_ok
                  {| args := git_command Sample.w_ok ["ls-files"];
                     returncode := 0;
                     stdout := Sample.ls_files_output;
                     stderr := "" |} eq_refl)).
Defined.

(** ** The [list_dotfiles] tool *)

Section ListTool.
Implicit Types (files : list string).

Lemma found_header_one_line files :
  Py.contains (Spec.found_header files) Py.nl_char = false.
Proof.
  unfold Spec.found_header. by rewrite !contains_app, contains_str_of_nat.
Qed.

(** The lines of the response text: header, blank line, the paths. *)
Lemma found_text_lines files :
  files ≠ [] → Forall (λ x, Py.contains x Py.nl_char = false) files →
  Py.split (Spec.found_text files) Py.nl_char = Spec.found_header files :: "" :: files.
Proof.
  intros Hne Hall.
  change (Spec.found_text files)
    with (Spec.found_header files
            +:+ String Py.nl_char (String Py.nl_char (Py.join Py.nl files))).
  rewrite split_app_sep, (split_no_sep _ _ (found_header_one_line files)).
  rewrite split_sep_cons. unfold Py.nl. by rewrite split_join.
Qed.

Lemma list_dotfiles_returns w files :
  result list_dotfiles w = Returns files →
  ∃ r, spawn w (git_command w ["ls-files"]) = inr r ∧ files = Spec.listTrackedFiles r.
Proof.
  intros Hres. destruct (spawn w (git_command w ["ls-files"])) as [e|r] eqn:Hrun.
  - unfold result in Hres. rewrite list_dotfiles_eq, Hrun in Hres. discriminate.
  - exists r. split; [done|]. rewrite (list_dotfiles_result _ _ Hrun) in Hres.
    by injection Hres.
Qed.

End ListTool.

(** C4.  When [list_dotfiles] returns [files], the [list_dotfiles] tool
    answers with one text.  That text is the literal "No dotfiles found or
    git repository not accessible." exactly when [files] is empty; otherwise
    it is "Found N dotfiles:", a blank line, and the paths one per line in
    the order of [files], N being their number. *)
Theorem call_tool_list_dotfiles_text (w : World) (arguments : ArgMap) (files : list string) :
  result list_dotfiles w = Returns files →
  ∃ t, result (call_tool "list_dotfiles" arguments) w = Returns (Spec.text_response t)
       ∧ (t = "No dotfiles found or git repository not accessible." ↔ files = [])
       ∧ (files ≠ [] →
            t = "Found " +:+ Py.str_of_nat (length files) +:+ " dotfiles:"
                  +:+ Py.nl +:+ Py.nl +:+ Py.join Py.nl files
            ∧ Py.split t Py.nl_char
              = ("Found " +:+ Py.str_of_nat (length files) +:+ " dotfiles:") :: "" :: files).
Proof.
  intros Hres. unfold result at 1. rewrite call_tool_list, Hres. cbn [snd].
  destruct files as [|f fs].
  - exists Spec.no_dotfiles_text. split; [done|]. split; [done|]. by intros [].
  - exists (Spec.found_text (f :: fs)). split; [done|]. split.
    + split; [|done]. unfold Spec.found_text, Spec.found_header. simpl. discriminate.
    + intros _. split; [symmetry; apply found_text_code|].
      destruct (list_dotfiles_returns _ _ Hres) as (r & _ & Hfiles).
      apply found_text_lines; [done|]. rewrite Hfiles. apply listTrackedFiles_one_line.
Qed.

Lemma call_tool_list_dotfiles_text_witness :
  ∃ t, result (call_tool "list_dotfiles" ∅) Sample.w_ok = Returns (Spec.text_response t)
       ∧ (t = "No dotfiles found or git repository not accessible."
          ↔ [".bashrc"; ".vimrc"; ".config/nvim/init.lua"] = [])
       ∧ ([".bashrc"; ".vimrc"; ".config/nvim/init.lua"] ≠ [] →
            t = "Found 3 dotfiles:" +:+ Py.nl +:+ Py.nl +:+ ".bashrc" +:+ Py.nl
                  +:+ ".vimrc" +:+ Py.nl +:+ ".config/nvim/init.lua"
            ∧ Py.split t Py.nl_char
              = ["Found 3 dotfiles:"; ""; ".bashrc"; ".vimrc"; ".config/nvim/init.lua"]).
Proof.
  exact (call_tool_list_dotfiles_text Sample.w_ok ∅
           [".bashrc"; ".vimrc"; ".config/nvim/init.lua"] eq_refl).
Defined.

(** ** The [get_dotfile_content] tool *)

Section GetTool.
Context (w : World).
Implicit Types (filepath : string) (arguments : ArgMap).

(** The dispatcher on a non-empty [str] argument. *)
Lemma call_tool_get_str arguments filepath :
  arguments !! "filepath" = Some (Py.PyStr filepath) → filepath ≠ "" →
  call_tool "get_dotfile_content" arguments w =
  (trace (get_file_content filepath) w,
   match result (get_file_content filepath) w with
   | Returns content =>
       Returns (Spec.text_response
                  ("Content of " +:+ filepath +:+ ":" +:+ Py.nl +:+ Py.nl +:+ content))
   | Raises e => Raises e
   end).
Proof.
  intros Harg Hne%String.eqb_neq. rewrite call_tool_get, Harg.
  simpl. by rewrite Hne.
Qed.

(** [get_file_content] never raises and always probes the file system. *)
Lemma get_file_content_returns filepath :
  ∃ content, result (get_file_content filepath) w = Returns content.
Proof.
  unfold result. rewrite get_file_content_eq. cbv zeta.
  destruct (exists_ w _); by eexists.
Qed.

Lemma get_file_content_probes filepath :
  ∃ t, trace (get_file_content filepath) w
       = Exists (os_path_join (expanduser w "~") filepath) :: t.
Proof.
  unfold trace. rewrite get_file_content_eq. cbv zeta.
  destruct (exists_ w _); by eexists.
Qed.

End GetTool.

(** Runs the tool on a non-empty [str] argument, down to the answers of the
    world about the joined path. *)
Ltac run_get_tool Harg Hne :=
  unfold trace, result;
  rewrite (call_tool_get_str _ _ _ Harg Hne);
  unfold trace, result;
  rewrite get_file_content_eq; cbv zeta.

(** A file that cannot be read gives the message of the exception as text. *)
Lemma call_tool_read_failure (w : World) (arguments : ArgMap) (filepath : string) (e : exn) :
  arguments !! "filepath" = Some (Py.PyStr filepath) → filepath ≠ "" →
  exists_ w (os_path_join (expanduser w "~") filepath) = true →
  read_text w (os_path_join (expanduser w "~") filepath) = inl e →
  result (call_tool "get_dotfile_content" arguments) w =
  Returns (Spec.text_response
             ("Content of " +:+ filepath +:+ ":" +:+ Py.nl +:+ Py.nl
                +:+ "Error reading file: " +:+ exn_str e)).
Proof.
  intros Harg Hne Hex Hread. run_get_tool Harg Hne. by rewrite Hex, Hread.
Qed.

(** On the text that [open(...).read()] hands back: for a non-empty
    [filepath] whose joined path exists and reads as text [content], the
    [get_dotfile_content] tool answers with exactly the text
    "Content of {filepath}:", a blank line, and [content]. *)
Theorem call_tool_content_of_file (w : World) (arguments : ArgMap)
    (filepath content : string) :
  arguments !! "filepath" = Some (Py.PyStr filepath) →
  filepath ≠ "" →
  exists_ w (os_path_join (expanduser w "~") filepath) = true →
  read_text w (os_path_join (expanduser w "~") filepath) = inr content →
  result (call_tool "get_dotfile_content" arguments) w =
  Returns [{| type := "text";
              text := "Content of " +:+ filepath +:+ ":" +:+ Py.nl +:+ Py.nl +:+ content |}].
Proof.
  intros Harg Hne Hex Hread. run_get_tool Harg Hne. by rewrite Hex, Hread.
Qed.

(** The example of the specification: [~/.bashrc] holding ["export X=1\n"]. *)
Lemma call_tool_content_of_bashrc :
  result (call_tool "get_dotfile_content" {[ "filepath" := Py.PyStr ".bashrc" ]}) Sample.w_ok =
  Returns [{| type := "text"; text := "Content of .bashrc:

export X=1
" |}].
Proof.
  apply (call_tool_content_of_file Sample.w_ok _ ".bashrc" ("export X=1" +:+ Py.nl));
    [reflexivity | discriminate | reflexivity | reflexivity].
Defined.

(** *** From the bytes of the file to the text of the response *)

Section TextMode.
Implicit Types (s : string).



End TextMode.




(** C6.  For a non-empty [filepath] whose joined path does not exist, the
    tool answers with the not-found message as ordinary text under the
    content header: a returned value, not a raised exception. *)
Theorem call_tool_file_not_found (w : World) (arguments : ArgMap) (filepath : string) :
  arguments !! "filepath" = Some (Py.PyStr filepath) →
  filepath ≠ "" →
  exists_ w (os_path_join (expanduser w "~") filepath) = false →
  result (call_tool "get_dotfile_content" arguments) w =
  Returns [{| type := "text";
              text := "Content of " +:+ filepath +:+ ":" +:+ Py.nl +:+ Py.nl
                        +:+ "File not found: " +:+ filepath |}].
Proof.
  intros Harg Hne Hex. run_get_tool Harg Hne. by rewrite Hex.
Qed.

(** The example of the specification: no [~/nope.txt]. *)
Lemma call_tool_nope_not_found :
  result (call_tool "get_dotfile_content" {[ "filepath" := Py.PyStr "nope.txt" ]}) Sample.w_ok =
  Returns [{| type := "text"; text := "Content of nope.txt:

File not found: nope.txt" |}].
Proof.
  apply (call_tool_file_not_found Sample.w_ok _ "nope.txt");
    [reflexivity | discriminate | reflexivity].
Defined.

(** C7.  When the key "filepath" is absent, or maps to the empty string, the
    tool answers with exactly "Error: filepath is required"; nothing is
    raised and no system call is made, whereas every call of
    [get_file_content] makes one: it was not called. *)
Theorem call_tool_filepath_required (w : World) (arguments : ArgMap) :
  arguments !! "filepath" = None ∨ arguments !! "filepath" = Some (Py.PyStr "") →
  call_tool "get_dotfile_content" arguments w =
    ([], Returns [{| type := "text"; text := "Error: filepath is required" |}])
  ∧ ∀ filepath, trace (get_file_content filepath) w ≠ [].
Proof.
  intros Harg. split.
  - rewrite call_tool_get. by destruct Harg as [-> | ->].
  - intros filepath. by destruct (get_file_content_probes w filepath) as [t ->].
Qed.

(** The example of the specification: no argument at all. *)
Lemma call_tool_filepath_required_witness :
  call_tool "get_dotfile_content" ∅ Sample.w_ok =
    ([], Returns [{| type := "text"; text := "Error: filepath is required" |}]).
Proof.
  apply (call_tool_filepath_required Sample.w_ok ∅). left. reflexivity.
Defined.

(** C8.  A tool name other than the two known ones gives exactly the text
    "Unknown tool: {name}", whatever the arguments. *)
Theorem call_tool_unknown_tool (w : World) (name : string) (arguments : ArgMap) :
  name ≠ "list_dotfiles" → name ≠ "get_dotfile_content" →
  call_tool name arguments w =
  ([], Returns [{| type := "text"; text := "Unknown tool: " +:+ name |}]).
Proof. apply call_tool_other. Qed.

(** The example of the specification. *)
Lemma call_tool_unknown_tool_witness :
  call_tool "unknown_tool" ∅ Sample.w_ok =
  ([], Returns [{| type := "text"; text := "Unknown tool: unknown_tool" |}]).
Proof.
  apply (call_tool_unknown_tool Sample.w_ok "unknown_tool" ∅); discriminate.
Defined.

(** ** Every outcome of the dispatcher *)

(** C9.  Whatever the tool name and the arguments, a response that
    [call_tool] produces is exactly one segment of type "text".  No response
    is produced in two cases only, in which the call raises: the git process
    could not be run, or "filepath" holds a truthy value that is not a
    string. *)
Theorem call_tool_one_segment (w : World) (name : string) (arguments : ArgMap) :
  match result (call_tool name arguments) w with
  | Returns response => ∃ t, response = [{| type := "text"; text := t |}]
  | Raises e =>
      (name = "list_dotfiles" ∧ spawn w (git_command w ["ls-files"]) = inl e)
      ∨ (name = "get_dotfile_content"
         ∧ ∃ v, arguments !! "filepath" = Some v ∧ Py.truthy v = true
                ∧ (∀ s, v ≠ Py.PyStr s) ∧ e = join_type_error v)
  end.
Proof.
  destruct (decide (name = "list_dotfiles")) as [->|Hl].
  { unfold result at 1. rewrite call_tool_list. cbn [snd]. unfold result.
    rewrite list_dotfiles_eq. cbn [snd].
    destruct (spawn w _) as [e|r]; [by left | by eexists]. }
  destruct (decide (name = "get_dotfile_content")) as [->|Hg].
  { unfold result at 1. rewrite call_tool_get. cbv zeta.
    destruct (arguments !! "filepath") as [v|] eqn:Harg; [|by eexists].
    cbn [default from_option id].
    destruct (Py.truthy v) eqn:Hv; [|by eexists]. cbn [negb].
    destruct v as [| | | |fp| |]; cbn [snd];
      try (right; split; [done|]; eexists; by repeat split).
    destruct (get_file_content_returns w fp) as [c ->]. by eexists. }
  unfold result. rewrite call_tool_other by done. by eexists.
Qed.

(** C2, as the code has it.  [call_tool] returns one text segment, and
    raises nothing, whenever the git process can be run (for the
    [list_dotfiles] tool) and the "filepath" argument, when given and
    truthy, is a string as the tool's input schema requires (for the
    [get_dotfile_content] tool): a non-zero exit status of git, a missing
    argument, a missing or unreadable file and an unknown tool name all end
    in a returned text. *)
Theorem call_tool_returns_text (w : World) (name : string) (arguments : ArgMap) :
  (name = "list_dotfiles" → ∃ r, spawn w (git_command w ["ls-files"]) = inr r) →
  (name = "get_dotfile_content" →
   ∀ v, arguments !! "filepath" = Some v → Py.truthy v = true → ∃ s, v = Py.PyStr s) →
  ∃ t, result (call_tool name arguments) w = Returns [{| type := "text"; text := t |}].
Proof.
  intros Hgit Hstr.
  destruct (decide (name = "list_dotfiles")) as [->|Hl].
  { destruct (Hgit eq_refl) as [r Hr]. unfold result at 1.
    rewrite call_tool_list. cbn [snd].
    rewrite (list_dotfiles_result _ _ Hr). by eexists. }
  destruct (decide (name = "get_dotfile_content")) as [->|Hg].
  { unfold result at 1. rewrite call_tool_get. cbv zeta.
    destruct (arguments !! "filepath") as [v|] eqn:Harg; [|by eexists].
    cbn [default from_option id].
    destruct (Py.truthy v) eqn:Hv; [|by eexists]. cbn [negb].
    destruct (Hstr eq_refl v eq_refl Hv) as [fp ->]. cbn [snd].
    destruct (get_file_content_returns w fp) as [c ->]. by eexists. }
  unfold result. rewrite call_tool_other by done. by eexists.
Qed.

(** git exits with status 128 for want of a repository: a text comes back. *)
Lemma call_tool_returns_text_witness :
  ∃ t, result (call_tool "list_dotfiles" ∅) Sample.w_norepo
       = Returns [{| type := "text"; text := t |}].
Proof.
  apply (call_tool_returns_text Sample.w_norepo "list_dotfiles" ∅).
  - intros _. eexists. reflexivity.
  - intros H. discriminate H.
Defined.

(** C2 as stated fails: with no git executable to start, [subprocess.run]
    raises, nothing in [run_git_command], [list_dotfiles] or [call_tool]
    catches it, and the dispatcher raises instead of returning a text. *)
Lemma call_tool_raises_without_git :
  result (call_tool "list_dotfiles" ∅) Sample.w_nogit
  = Raises (Exn "FileNotFoundError" "[Errno 2] No such file or directory: 'git'").
Proof. reflexivity. Qed.

(** ** Which path [get_file_content] reads *)

Section JoinFacts.
Implicit Types (s a b home filepath : string) (c : ascii).

Lemma endswith_last s c : Py.endswith s (String c "") = true → Spec.last s = Some c.
Proof.
  induction s as [|a s IH]; [done|].
  cbn [Py.endswith]. intros [H|H]%orb_true_iff.
  - apply String.eqb_eq in H. by injection H as -> ->.
  - specialize (IH H). destruct s; [done|]. exact IH.
Qed.

Lemma rstrip_sep_no_trailing_sep s : Py.endswith (Py.rstrip_sep s) "/" = false.
Proof.
  destruct (Py.endswith _ _) eqn:E; [|done].
  apply endswith_last, last_rstrip in E. done.
Qed.

(** The home directory is ["~"] when the user has none, and otherwise the
    configured one without its trailing separators, ["/"] if nothing is
    left.  It is never empty and ends with a separator only when it is
    ["/"]. *)
Lemma expanduser_home (w : World) :
  expanduser w "~" =
  match userhome w with
  | None => "~"
  | Some h => if String.eqb (Py.rstrip_sep h) "" then "/" else Py.rstrip_sep h
  end.
Proof.
  unfold expanduser. simpl. destruct (userhome w) as [h|]; [|done].
  by rewrite app_empty_r.
Qed.

Lemma expanduser_home_shape (w : World) :
  expanduser w "~" = "/"
  ∨ (expanduser w "~" ≠ "" ∧ Py.endswith (expanduser w "~") "/" = false).
Proof.
  rewrite expanduser_home. destruct (userhome w) as [h|]; [|by right].
  destruct (String.eqb_spec (Py.rstrip_sep h) ""); [by left|right].
  split; [done|]. apply rstrip_sep_no_trailing_sep.
Qed.

Lemma os_path_join_home (w : World) filepath :
  os_path_join (expanduser w "~") filepath =
  if Py.startswith filepath "/" then filepath
  else if String.eqb (expanduser w "~") "/" then "/" +:+ filepath
  else expanduser w "~" +:+ "/" +:+ filepath.
Proof.
  unfold os_path_join. destruct (Py.startswith filepath "/"); [done|].
  destruct (expanduser_home_shape w) as [-> | [Hne Hend]]; [done|].
  apply String.eqb_neq in Hne. rewrite Hne, Hend. cbn [orb].
  destruct (String.eqb_spec (expanduser w "~") "/") as [E|]; [|done].
  rewrite E in Hend. done.
Qed.

Lemma prefix_empty s : String.prefix "" s = true.
Proof. by destruct s. Qed.

Lemma startswith_app a b c :
  a ≠ "" → Py.startswith (a +:+ b) (String c "") = Py.startswith a (String c "").
Proof.
  destruct a as [|x a]; [done|]. intros _. unfold Py.startswith. simpl.
  destruct (ascii_dec c x); [|done].
  by rewrite !prefix_empty.
Qed.

Lemma startswith_self_app a b : Py.startswith (a +:+ b) a = true.
Proof.
  unfold Py.startswith. induction a as [|x a IH]; simpl; [apply prefix_empty|].
  by destruct (ascii_dec x x).
Qed.

Lemma startswith_self a : Py.startswith a a = true.
Proof. rewrite <- (app_empty_r a) at 1. apply startswith_self_app. Qed.

End JoinFacts.

(** C1, as the code has it.  [get_file_content] probes, and opens, the one
    path [os.path.join(home, filepath)].  For a [filepath] that does not
    start with "/" this is the home directory, a separator (none when the
    home directory is "/"), and [filepath]: a path that starts with the home
    directory.  For a [filepath] that starts with "/", [os.path.join] drops
    the home directory and the path is [filepath] itself. *)
Theorem get_file_content_path (w : World) (filepath : string) :
  let home := expanduser w "~" in
  let full_path :=
    if Py.startswith filepath "/" then filepath
    else if String.eqb home "/" then "/" +:+ filepath
    else home +:+ "/" +:+ filepath in
  os_path_join home filepath = full_path
  ∧ (trace (get_file_content filepath) w = [Exists full_path]
     ∨ trace (get_file_content filepath) w = [Exists full_path; Open full_path])
  ∧ Py.startswith full_path (if Py.startswith filepath "/" then filepath else home) = true.
Proof.
  intros home full_path.
  assert (os_path_join home filepath = full_path) as Hjoin by apply os_path_join_home.
  split; [done|]. split.
  - unfold trace. rewrite get_file_content_eq. cbv zeta.
    change (os_path_join (expanduser w "~") filepath) with (os_path_join home filepath).
    rewrite Hjoin.
    destruct (exists_ w full_path); [by right | by left].
  - unfold full_path. clear Hjoin full_path. clearbody home.
    destruct (Py.startswith filepath "/"); [apply startswith_self|].
    destruct (String.eqb_spec home "/") as [->|_]; apply startswith_self_app.
Qed.

(** C1 as stated fails: an absolute [filepath] is probed, opened and read as
    it is.  The home directory is no part of the path, and a file outside it
    is returned. *)
Lemma absolute_filepath_read_directly :
  expanduser Sample.w_ok "~" = "/home/u"
  ∧ get_file_content "/etc/passwd" Sample.w_ok
    = ([Exists "/etc/passwd"; Open "/etc/passwd"],
       Returns ("root:x:0:0:root:/root:/bin/sh" +:+ Py.nl))
  ∧ Py.startswith "/etc/passwd" "/home/u" = false.
Proof. repeat split. Qed.


(** ** Where the path read by [get_file_content] leads *)

Section PathFacts.
Implicit Types (loc target cwd : list string) (c s : string) (n : nat).

Lemma walk_up loc n : fold_left Path.walk_step (repeat ".." n) loc = drop n loc.
Proof.
  revert loc. induction n as [|n IH]; intros loc; simpl; [by rewrite drop_0|].
  rewrite IH. change (Path.walk_step loc "..") with (tail loc).
  destruct loc; simpl; [by rewrite drop_nil | reflexivity].
Qed.

Lemma walk_name loc c : Path.is_name c = true → Path.walk_step loc c = c :: loc.
Proof.
  unfold Path.is_name, Path.walk_step.
  intros [[[H1 H2]%andb_true_iff H3]%andb_true_iff _]%andb_true_iff.
  apply negb_true_iff in H1, H2, H3. by rewrite H1, H2, H3.
Qed.

Lemma walk_down target loc :
  forallb Path.is_name target = true →
  fold_left Path.walk_step target loc = rev target ++ loc.
Proof.
  revert loc. induction target as [|c target IH]; intros loc; [done|].
  simpl. intros [Hc Ht]%andb_true_iff.
  rewrite (walk_name _ _ Hc), (IH _ Ht), <- app_assoc. reflexivity.
Qed.

Lemma is_name_no_sep c : Path.is_name c = true → Py.contains c "/" = false.
Proof. unfold Path.is_name. intros [_ H]%andb_true_iff. by apply negb_true_iff. Qed.

Lemma is_name_not_empty c : Path.is_name c = true → c ≠ "".
Proof. by intros H ->. Qed.

Lemma climb_pieces n target :
  forallb Path.is_name target = true →
  Forall (λ c, Py.contains c "/" = false ∧ c ≠ "") (repeat ".." n ++ target).
Proof.
  intros Ht. apply Forall_app. split.
  - induction n; simpl; by constructor.
  - apply Forall_forall. intros c Hc.
    rewrite forallb_forall in Ht. apply list_elem_of_In, Ht in Hc.
    split; [by apply is_name_no_sep | by apply is_name_not_empty].
Qed.

Lemma climb_not_nil n target : target ≠ [] → repeat ".." n ++ target ≠ [].
Proof. intros Hne [_ H]%app_eq_nil. done. Qed.

Lemma split_climb n target :
  target ≠ [] → forallb Path.is_name target = true →
  Py.split (Path.climb n target) "/" = repeat ".." n ++ target.
Proof.
  intros Hne Ht. unfold Path.climb. apply (split_join _ "/"%char).
  - by apply climb_not_nil.
  - eapply Forall_impl; [by apply climb_pieces|]. by intros c [H _].
Qed.

Lemma startswith_piece c s :
  Py.contains c "/" = false → c ≠ "" → Py.startswith (c +:+ s) "/" = false.
Proof.
  destruct c as [|a c]; [done|]. intros Hc _.
  cbn [Py.contains] in Hc. apply orb_false_iff in Hc as [Ha _].
  unfold Py.startswith. cbn [String.append String.prefix].
  destruct (ascii_dec "/" a) as [<-|]; [|done].
  by rewrite Ascii.eqb_refl in Ha.
Qed.

(** A climbing path is relative and not empty. *)
Lemma climb_relative n target :
  target ≠ [] → forallb Path.is_name target = true →
  Py.startswith (Path.climb n target) "/" = false ∧ Path.climb n target ≠ "".
Proof.
  intros Hne Ht. pose proof (climb_pieces n target Ht) as Hall.
  pose proof (climb_not_nil n target Hne) as Hnil.
  unfold Path.climb, Py.join. destruct (repeat ".." n ++ target) as [|c cs]; [done|].
  inversion_clear Hall as [|? ? [Hsep Hc] _].
  destruct cs as [|c' cs].
  - simpl. split; [|done]. rewrite <- (app_empty_r c). by apply startswith_piece.
  - change (String.concat "/" (c :: c' :: cs))
      with (c +:+ "/" +:+ String.concat "/" (c' :: cs)).
    split; [by apply startswith_piece|]. by destruct c.
Qed.

(** From the home directory, climbing as many directories as it is deep and
    walking down [target] leads to [target]. *)
Lemma resolve_climb (w : World) cwd target :
  target ≠ [] → forallb Path.is_name target = true →
  Path.resolve cwd
    (os_path_join (expanduser w "~")
       (Path.climb (length (Path.resolve cwd (expanduser w "~"))) target))
  = target.
Proof.
  intros Hne Ht. rewrite os_path_join_home.
  destruct (climb_relative (length (Path.resolve cwd (expanduser w "~"))) target Hne Ht)
    as [-> _].
  destruct (String.eqb_spec (expanduser w "~") "/") as [E|E].
  - rewrite E. change (length (Path.resolve cwd "/")) with 0%nat.
    unfold Path.resolve. rewrite (startswith_self_app "/").
    change ("/" +:+ Path.climb 0 target) with (String "/" (Path.climb 0 target)).
    rewrite split_sep_cons, split_climb by done.
    cbn [repeat app fold_left]. change (Path.walk_step [] "") with (@nil string).
    by rewrite walk_down, app_nil_r, rev_involutive.
  - destruct (expanduser_home_shape w) as [|[Hhome _]]; [done|].
    generalize dependent (expanduser w "~"). intros home _ Hhome.
    unfold Path.resolve at 1.
    change (home +:+ "/" +:+ ?fp) with (home +:+ String "/" fp).
    rewrite (startswith_app home _ "/"%char) by done.
    rewrite split_app_sep, fold_left_app.
    unfold Path.resolve. rewrite length_rev.
    set (loc := fold_left Path.walk_step (Py.split home "/") _).
    rewrite split_climb, fold_left_app, walk_up, walk_down by done.
    by rewrite drop_all, app_nil_r, rev_involutive.
Qed.

End PathFacts.

(** C10.  The [get_dotfile_content] tool never asks git whether [filepath]
    is tracked: for a non-empty [filepath] whose joined path exists and reads
    as [content], the whole run is one probe and one read of that path, with
    no git process, and [content] comes back, whatever git would have listed.
    Components ".." are joined as they are: the [filepath] that climbs from
    the home directory to the root and walks down to any location [target]
    leads to [target], inside the home directory or not. *)
Theorem get_dotfile_content_unrestricted (w : World) (arguments : ArgMap)
    (filepath content : string) :
  let full_path := os_path_join (expanduser w "~") filepath in
  arguments !! "filepath" = Some (Py.PyStr filepath) →
  filepath ≠ "" →
  exists_ w full_path = true →
  read_text w full_path = inr content →
  call_tool "get_dotfile_content" arguments w =
    ([Exists full_path; Open full_path],
     Returns [{| type := "text";
                 text := "Content of " +:+ filepath +:+ ":" +:+ Py.nl +:+ Py.nl +:+ content |}])
  ∧ (∀ cwd target,
       target ≠ [] → forallb Path.is_name target = true →
       filepath = Path.climb (length (Path.resolve cwd (expanduser w "~"))) target →
       Path.resolve cwd full_path = target).
Proof.
  intros full_path Harg Hne Hex Hread. split.
  - run_get_tool Harg Hne. fold full_path. by rewrite Hex, Hread.
  - intros cwd target Ht Hnames ->. by apply resolve_climb.
Qed.

(** [/etc/passwd] is not tracked and not under [/home/u]; it is read through
    the path that climbs two directories. *)
Lemma get_dotfile_content_unrestricted_witness :
  call_tool "get_dotfile_content" {[ "filepath" := Py.PyStr "../../etc/passwd" ]} Sample.w_ok =
    ([Exists "/home/u/../../etc/passwd"; Open "/home/u/../../etc/passwd"],
     Returns [{| type := "text"; text := "Content of ../../etc/passwd:

root:x:0:0:root:/root:/bin/sh
" |}])
  ∧ Path.resolve [] "/home/u/../../etc/passwd" = ["etc"; "passwd"].
Proof.
  destruct (get_dotfile_content_unrestricted Sample.w_ok
              {[ "filepath" := Py.PyStr "../../etc/passwd" ]}
              "../../etc/passwd" ("root:x:0:0:root:/root:/bin/sh" +:+ Py.nl))
    as [Hrun Hloc]; [reflexivity | discriminate | reflexivity | reflexivity |].
  split; [exact Hrun|].
  apply (Hloc [] ["etc"; "passwd"]); [discriminate | reflexivity | reflexivity].
Defined.

(** * Further properties of [src/main.py] *)

(** ** [run_git_command] *)

Section GitCommand.
Implicit Types (w : World) (s : string).

Lemma app_not_empty s c t : s +:+ String c t ≠ "".
Proof. by destruct s. Qed.

(** The repository directory is the entry [.cfg] of the work tree. *)
Lemma git_dir_in_work_tree w :
  expanduser w "~/.cfg" = os_path_join (expanduser w "~") ".cfg".
Proof.
  rewrite os_path_join_home, expanduser_home.
  change (Py.startswith ".cfg" "/") with false. cbv iota.
  unfold expanduser. simpl. destruct (userhome w) as [h|]; [|reflexivity].
  pose proof (app_not_empty (Py.rstrip_sep h) "/" ".cfg") as Hne.
  apply String.eqb_neq in Hne.
  change (Py.rstrip_sep h +:+ "/.cfg" =? "")%string
    with (Py.rstrip_sep h +:+ String "/" ".cfg" =? "")%string.
  rewrite Hne.
  destruct (String.eqb_spec (Py.rstrip_sep h) "") as [->|_]; [reflexivity|].
  destruct (String.eqb_spec (Py.rstrip_sep h) "/") as [E|_]; [|reflexivity].
  pose proof (rstrip_sep_no_trailing_sep h) as Hend. by rewrite E in Hend.
Qed.

End GitCommand.

(** X1.  [run_git_command] starts exactly one process, whose command line is
    "git", the repository directory (always the entry ".cfg" of the work
    tree), the work tree (the home directory), then the caller's arguments
    in their order; whatever the exit status, the completed process is
    returned and nothing is raised. *)
Theorem run_git_command_line (w : World) (args : list string) :
  trace (run_git_command args) w
  = [Spawn ("git" :: ("--git-dir=" +:+ os_path_join (expanduser w "~") ".cfg")
              :: ("--work-tree=" +:+ expanduser w "~") :: args)]
  ∧ ∀ r, spawn w (git_command w args) = inr r →
         result (run_git_command args) w = Returns r.
Proof.
  unfold trace, result. rewrite run_git_command_eq. split.
  - unfold git_command. by rewrite git_dir_in_work_tree.
  - intros r ->. reflexivity.
Qed.

(** ** [list_dotfiles]: padding, blank lines, failures *)

Section Padding.
Implicit Types (s a b : string) (l : Lines.line) (ls : list Lines.line).

Lemma lstrip_blank s : Lines.blank s = true → Py.lstrip_by Py.isspace s = "".
Proof.
  induction s as [|c s IH]; [done|]. simpl.
  intros [Hc Hs]%andb_true_iff. rewrite Hc. by apply IH.
Qed.

Lemma rstrip_blank s : Lines.blank s = true → Py.rstrip_by Py.isspace s = "".
Proof.
  induction s as [|c s IH]; [done|]. simpl.
  intros [Hc Hs]%andb_true_iff. by rewrite (IH Hs), Hc.
Qed.

Lemma strip_blank s : Lines.blank s = true → Py.strip s = "".
Proof. intros H. unfold Py.strip. by rewrite (lstrip_blank _ H). Qed.

Lemma lstrip_blank_app a s :
  Lines.blank a = true → Py.lstrip_by Py.isspace (a +:+ s) = Py.lstrip_by Py.isspace s.
Proof.
  induction a as [|c a IH]; [done|]. simpl.
  intros [Hc Ha]%andb_true_iff. rewrite Hc. by apply IH.
Qed.

Lemma rstrip_app_blank s b :
  Lines.blank b = true → Py.rstrip_by Py.isspace (s +:+ b) = Py.rstrip_by Py.isspace s.
Proof.
  intros Hb. induction s as [|c s IH]; simpl.
  - by apply rstrip_blank.
  - by rewrite IH.
Qed.

(** Stripping a line leaves its path. *)
Lemma strip_render l : Lines.well_formed l → Py.strip (Lines.render l) = Lines.path l.
Proof.
  intros (Ha & Hb & Hp & _ & _). unfold Lines.render, Py.strip.
  rewrite (lstrip_blank_app _ _ Ha).
  destruct Hp as [-> | Ht].
  - simpl. by rewrite (lstrip_blank _ Hb).
  - pose proof (strip_fixed _ Ht) as Hfix. unfold Py.strip in Hfix.
    destruct Ht as (c & d & Hf & Hl & Hc & Hd).
    destruct (Lines.path l) as [|x p] eqn:E; [done|].
    simpl in Hf. injection Hf as ->.
    simpl in *. rewrite Hc in *.
    change (String c (p +:+ Lines.after l)) with (String c p +:+ Lines.after l).
    by rewrite (rstrip_app_blank _ _ Hb).
Qed.

Lemma blank_pieces s sep :
  Lines.blank s = true → Forall (λ x, Lines.blank x = true) (Py.split s sep).
Proof.
  induction s as [|c s IH]; simpl; [by repeat constructor|].
  intros [Hc Hs]%andb_true_iff. specialize (IH Hs).
  destruct (Ascii.eqb c sep); [by constructor|].
  destruct (Py.split s sep) as [|x xs]; [by repeat constructor; simpl; rewrite Hc|].
  inversion_clear IH as [|? ? Hx Hxs]. constructor; [|done].
  simpl. by rewrite Hc, Hx.
Qed.

Lemma trim_drop_blank (xs : list string) :
  Forall (λ x, Lines.blank x = true) xs →
  List.filter (λ y, negb (String.eqb y "")) (map Py.strip xs) = [].
Proof.
  induction 1 as [|x xs Hx _ IH]; [done|]. simpl.
  by rewrite (strip_blank _ Hx), IH.
Qed.

Lemma listTrackedFiles_blank (r : CompletedProcess) :
  returncode r ≠ 0 ∨ Lines.blank (stdout r) = true → Spec.listTrackedFiles r = [].
Proof.
  unfold Spec.listTrackedFiles. intros [Hrc|Hblank].
  - by rewrite decide_False.
  - case_decide; [|done]. by apply trim_drop_blank, blank_pieces.
Qed.

Lemma listTrackedFiles_rendered (r : CompletedProcess) ls :
  returncode r = 0 → Forall Lines.well_formed ls →
  stdout r = Py.join Py.nl (map Lines.render ls) →
  Spec.listTrackedFiles r
  = List.filter (λ p, negb (String.eqb p "")) (map Lines.path ls).
Proof.
  intros Hrc Hwf Hout. unfold Spec.listTrackedFiles.
  rewrite decide_True by done. rewrite Hout.
  destruct ls as [|l ls]; [reflexivity|].
  unfold Py.nl. rewrite split_join.
  - rewrite map_map. f_equal. apply map_ext_Forall.
    eapply Forall_impl; [exact Hwf|]. intros x Hx. by apply strip_render.
  - done.
  - apply Forall_map. eapply Forall_impl; [exact Hwf|]. by intros x (_ & _ & _ & ? & _).
Qed.

End Padding.

(** X2.  Padding does not matter to [list_dotfiles]: when git succeeds and
    every line of the output that [text=True] delivers (so without carriage
    returns) is a path, or nothing, with whitespace around it (spaces,
    tabs), the paths come back bare, in order, and the lines without a path
    are gone. *)
Theorem list_dotfiles_padding (w : World) (r : CompletedProcess) (ls : list Lines.line) :
  spawn w (git_command w ["ls-files"]) = inr r →
  returncode r = 0 →
  Forall Lines.well_formed ls →
  stdout r = Py.join Py.nl (map Lines.render ls) →
  result list_dotfiles w
  = Returns (List.filter (λ p, negb (String.eqb p "")) (map Lines.path ls)).
Proof.
  intros Hrun Hrc Hwf Hout.
  rewrite (list_dotfiles_result _ _ Hrun). f_equal.
  by apply listTrackedFiles_rendered.
Qed.

(** Output with a line padded by spaces and a tab. *)
Lemma list_dotfiles_padding_witness :
  result list_dotfiles Lines.w_padded = Returns [".bashrc"; ".vimrc"].
Proof.
  apply (list_dotfiles_padding Lines.w_padded
           {| args := git_command Lines.w_padded ["ls-files"]; returncode := 0;
              stdout := Lines.padded_output; stderr := "" |}
           [ {| Lines.before := ""; Lines.path := ".bashrc"; Lines.after := "" |};
             {| Lines.before := "  "; Lines.path := ".vimrc";
                Lines.after := " " +:+ String "009" "" |};
             {| Lines.before := ""; Lines.path := ""; Lines.after := "" |} ]);
    [reflexivity | reflexivity | | reflexivity].
  assert (∀ l, Lines.blank (Lines.before l) = true → Lines.blank (Lines.after l) = true →
               Lines.path l = "" ∨ Spec.trimmed (Lines.path l) →
               Py.contains (Lines.render l) Py.nl_char = false →
               Py.contains (Lines.render l) TextFile.cr_char = false →
               Lines.well_formed l) as Hwf by (intros l ? ? ? ? ?; by repeat split).
  constructor; [|constructor; [|constructor; [|constructor]]];
    apply Hwf; try reflexivity.
  - right. by exists "."%char, "c"%char.
  - right. by exists "."%char, "c"%char.
  - by left.
Defined.

(** X3.  A git that fails, a repository with no file and an output of blank
    lines are answered alike by the [list_dotfiles] tool: when the exit
    status is not zero (whatever was printed), or the output is whitespace
    only, the response is the one text "No dotfiles found or git repository
    not accessible."; standard error is never shown. *)
Theorem call_tool_list_nothing (w : World) (arguments : ArgMap) (r : CompletedProcess) :
  spawn w (git_command w ["ls-files"]) = inr r →
  returncode r ≠ 0 ∨ Lines.blank (stdout r) = true →
  call_tool "list_dotfiles" arguments w
  = ([Spawn (git_command w ["ls-files"])],
     Returns [{| type := "text";
                 text := "No dotfiles found or git repository not accessible." |}]).
Proof.
  intros Hrun Hnone. rewrite call_tool_list.
  rewrite (list_dotfiles_result _ _ Hrun), (listTrackedFiles_blank _ Hnone).
  unfold trace. by rewrite list_dotfiles_eq.
Qed.

(** git printed a path and then failed with status 1. *)
Lemma call_tool_list_nothing_witness :
  call_tool "list_dotfiles" ∅ Lines.w_failed
  = ([Spawn ["git"; "--git-dir=/home/u/.cfg"; "--work-tree=/home/u"; "ls-files"]],
     Returns [{| type := "text";
                 text := "No dotfiles found or git repository not accessible." |}]).
Proof.
  apply (call_tool_list_nothing Lines.w_failed ∅
           {| args := git_command Lines.w_failed ["ls-files"]; returncode := 1;
              stdout := ".bashrc" +:+ Py.nl; stderr := "" |});
    [reflexivity | left; discriminate].
Defined.

(** X4.  What [list_dotfiles] lists can be asked for: with any path of its
    result as "filepath", the [get_dotfile_content] tool does not answer
    that the argument is missing and raises nothing; it runs
    [get_file_content] on that path and returns what it returns under the
    header "Content of {path}:". *)
Theorem listed_path_is_accepted (w : World) (files : list string) (f : string)
    (arguments : ArgMap) :
  result list_dotfiles w = Returns files →
  In f files →
  arguments !! "filepath" = Some (Py.PyStr f) →
  ∃ content,
    result (get_file_content f) w = Returns content
    ∧ call_tool "get_dotfile_content" arguments w
      = (trace (get_file_content f) w,
         Returns [{| type := "text";
                     text := "Content of " +:+ f +:+ ":" +:+ Py.nl +:+ Py.nl +:+ content |}]).
Proof.
  intros Hres Hin Harg.
  destruct (list_dotfiles_returns _ _ Hres) as (r & _ & ->).
  pose proof (listTrackedFiles_trimmed r) as Htrim.
  rewrite Forall_forall in Htrim.
  assert (f ≠ "") as Hne by by apply trimmed_not_empty, Htrim, list_elem_of_In.
  destruct (get_file_content_returns w f) as [content Hc].
  exists content. split; [done|].
  rewrite (call_tool_get_str _ _ _ Harg Hne). by rewrite Hc.
Qed.

Lemma listed_path_is_accepted_witness :
  ∃ content,
    result (get_file_content ".vimrc") Sample.w_ok = Returns content
    ∧ call_tool "get_dotfile_content" {[ "filepath" := Py.PyStr ".vimrc" ]} Sample.w_ok
      = (trace (get_file_content ".vimrc") Sample.w_ok,
         Returns [{| type := "text";
                     text := "Content of " +:+ ".vimrc" +:+ ":" +:+ Py.nl +:+ Py.nl +:+ content |}]).
Proof.
  apply (listed_path_is_accepted Sample.w_ok [".bashrc"; ".vimrc"; ".config/nvim/init.lua"]);
    [reflexivity | right; left; reflexivity | reflexivity].
Defined.

(** ** [get_file_content] and the [get_dotfile_content] tool: failures as text *)

(** X5.  A file that exists and cannot be read (a directory, no permission,
    bytes that are not UTF-8, a file removed after the existence probe) is
    answered with a text too: the tool probes and opens the joined path,
    catches the exception, and returns "Error reading file: " followed by
    the message of the exception, under the content header. *)
Theorem call_tool_unreadable_file (w : World) (arguments : ArgMap)
    (filepath : string) (e : exn) :
  let full_path := os_path_join (expanduser w "~") filepath in
  arguments !! "filepath" = Some (Py.PyStr filepath) →
  filepath ≠ "" →
  exists_ w full_path = true →
  read_text w full_path = inl e →
  call_tool "get_dotfile_content" arguments w
  = ([Exists full_path; Open full_path],
     Returns [{| type := "text";
                 text := "Content of " +:+ filepath +:+ ":" +:+ Py.nl +:+ Py.nl
                           +:+ "Error reading file: " +:+ exn_str e |}]).
Proof.
  intros full_path Harg Hne Hex Hread. run_get_tool Harg Hne.
  fold full_path. by rewrite Hex, Hread.
Qed.

(** [~/.config] is a directory. *)
Lemma call_tool_unreadable_file_witness :
  call_tool "get_dotfile_content" {[ "filepath" := Py.PyStr ".config" ]} Lines.w_dir
  = ([Exists "/home/u/.config"; Open "/home/u/.config"],
     Returns [{| type := "text"; text := "Content of .config:

Error reading file: [Errno 21] Is a directory: '/home/u/.config'" |}]).
Proof.
  apply (call_tool_unreadable_file Lines.w_dir _ ".config"
           (Exn "IsADirectoryError" "[Errno 21] Is a directory: '/home/u/.config'"));
    [reflexivity | discriminate | reflexivity | reflexivity].
Defined.



(** ** The dispatcher and its arguments *)

(** X7.  Of its arguments, [call_tool] reads the key "filepath" and nothing
    else: two argument mappings that agree on that key give the same run,
    calls and outcome, for every tool name.  Other keys are ignored, and
    the [list_dotfiles] tool ignores all of them. *)
Theorem call_tool_reads_filepath_only (w : World) (name : string)
    (arguments1 arguments2 : ArgMap) :
  arguments1 !! "filepath" = arguments2 !! "filepath" →
  call_tool name arguments1 w = call_tool name arguments2 w.
Proof.
  intros Heq.
  destruct (decide (name = "list_dotfiles")) as [->|Hl];
    [by rewrite !call_tool_list|].
  destruct (decide (name = "get_dotfile_content")) as [->|Hg];
    [by rewrite !call_tool_get, Heq|].
  by rewrite !call_tool_other.
Qed.

Lemma call_tool_reads_filepath_only_witness :
  call_tool "get_dotfile_content"
    {[ "filepath" := Py.PyStr ".bashrc"; "encoding" := Py.PyStr "latin-1" ]} Sample.w_ok
  = call_tool "get_dotfile_content" {[ "filepath" := Py.PyStr ".bashrc" ]} Sample.w_ok.
Proof.
  apply (call_tool_reads_filepath_only Sample.w_ok "get_dotfile_content"). reflexivity.
Defined.

(** X8.  The [get_dotfile_content] tool answers "Error: filepath is required"
    exactly when the value under "filepath" is missing or falsy: [None],
    [False], [0], [0.0], an empty string, list or dict count as missing, as
    nothing else does. *)
Theorem call_tool_required_iff_falsy (w : World) (arguments : ArgMap) :
  result (call_tool "get_dotfile_content" arguments) w
    = Returns [{| type := "text"; text := "Error: filepath is required" |}]
  ↔ Py.truthy (default (Py.PyStr "") (arguments !! "filepath")) = false.
Proof.
  unfold result. rewrite call_tool_get. cbv zeta.
  destruct (Py.truthy _) eqn:Hv; cbn [negb]; [|done].
  split; [|done]. intros H. exfalso.
  destruct (default _ _) as [| | | |fp| |]; cbn [snd] in H; try discriminate H.
  destruct (get_file_content_returns w fp) as [c Hc]. rewrite Hc in H.
  discriminate H.
Qed.

(** X9.  The system calls of [call_tool] are bounded by its inputs: it makes
    none, or (for [list_dotfiles]) starts the one process "git ... ls-files"
    whose command line holds nothing of the tool name or the arguments, or
    (for [get_dotfile_content] with a non-empty string) probes, and then
    perhaps opens, the one path joined from the home directory and the
    argument.  It never starts git for [get_dotfile_content] and never
    touches a file for [list_dotfiles]. *)
Theorem call_tool_system_calls (w : World) (name : string) (arguments : ArgMap) :
  trace (call_tool name arguments) w = []
  ∨ (name = "list_dotfiles"
     ∧ trace (call_tool name arguments) w = [Spawn (git_command w ["ls-files"])])
  ∨ (name = "get_dotfile_content"
     ∧ ∃ filepath, arguments !! "filepath" = Some (Py.PyStr filepath)
         ∧ filepath ≠ ""
         ∧ (trace (call_tool name arguments) w
              = [Exists (os_path_join (expanduser w "~") filepath)]
            ∨ trace (call_tool name arguments) w
              = [Exists (os_path_join (expanduser w "~") filepath);
                 Open (os_path_join (expanduser w "~") filepath)])).
Proof.
  destruct (decide (name = "list_dotfiles")) as [->|Hl].
  { right; left. split; [done|]. unfold trace at 1. rewrite call_tool_list.
    unfold trace. by rewrite list_dotfiles_eq. }
  destruct (decide (name = "get_dotfile_content")) as [->|Hg].
  { unfold trace. rewrite call_tool_get. cbv zeta.
    destruct (arguments !! "filepath") as [v|] eqn:Harg; [|by left].
    cbn [default from_option id].
    destruct (Py.truthy v) eqn:Hv; [|by left]. cbn [negb].
    destruct v as [| | | |fp| |]; try by left.
    right; right. split; [done|]. exists fp. split; [done|].
    split; [by intros ->|].
    cbn [fst]. unfold trace. rewrite get_file_content_eq. cbv zeta.
    destruct (exists_ w _); [by right | by left]. }
  left. unfold trace. by rewrite call_tool_other.
Qed.

(** ** The registry [list_tools] and the dispatcher *)

Section Registry.
Implicit Types (w : World) (t : Tools.Tool) (arguments : ArgMap).

Lemma listed_tool t :
  In t Tools.list_tools →
  (Tools.name t = "list_dotfiles" ∧ Tools.required_keys (Tools.inputSchema t) = []
   ∧ Tools.string_keys (Tools.inputSchema t) = [])
  ∨ (Tools.name t = "get_dotfile_content"
     ∧ Tools.required_keys (Tools.inputSchema t) = ["filepath"]
     ∧ Tools.string_keys (Tools.inputSchema t) = ["filepath"]).
Proof. intros [<-|[<-|[]]]; [left | right]; by repeat split. Qed.

Lemma listed_names name :
  In name (map Tools.name Tools.list_tools)
  ↔ name = "list_dotfiles" ∨ name = "get_dotfile_content".
Proof.
  simpl. split.
  - intros [<-|[<-|[]]]; [by left | by right].
  - intros [->| ->]; [by left | by right; left].
Qed.

End Registry.

(** X10.  The registry and the dispatcher know the same tools: [list_tools]
    names two tools, with different names, and [call_tool] answers
    "Unknown tool: {name}" exactly for the names that [list_tools] does not
    list. *)
Theorem registry_matches_dispatcher (w : World) (name : string) (arguments : ArgMap) :
  NoDup (map Tools.name Tools.list_tools)
  ∧ length Tools.list_tools = 2%nat
  ∧ (¬ In name (map Tools.name Tools.list_tools)
     ↔ result (call_tool name arguments) w
       = Returns [{| type := "text"; text := "Unknown tool: " +:+ name |}]).
Proof.
  split; [|split; [reflexivity|]].
  { apply NoDup_cons. split; [|apply NoDup_singleton].
    intros [E|[]]%list_elem_of_In. discriminate E. }
  rewrite listed_names. split.
  - intros Hnot. unfold result.
    rewrite call_tool_other; [done | by intros ->; apply Hnot; left
                             | by intros ->; apply Hnot; right].
  - intros Hres [->| ->]; unfold result in Hres.
    + rewrite call_tool_list in Hres. cbn [snd] in Hres.
      destruct (result list_dotfiles w) as [[|f fs]|e]; discriminate Hres.
    + rewrite call_tool_get in Hres. cbv zeta in Hres.
      destruct (negb _); [discriminate Hres|].
      destruct (default _ _) as [| | | |fp| |]; try discriminate Hres.
      cbn [snd] in Hres.
      destruct (result (get_file_content fp) w); discriminate Hres.
Qed.

(** X11.  The dispatcher reports as missing what the registry declares
    required: for every listed tool and every key its input schema
    requires, a call without that key makes no system call and answers
    "Error: {key} is required". *)
Theorem required_key_is_enforced (w : World) (t : Tools.Tool) (key : string)
    (arguments : ArgMap) :
  In t Tools.list_tools →
  In key (Tools.required_keys (Tools.inputSchema t)) →
  arguments !! key = None →
  call_tool (Tools.name t) arguments w
  = ([], Returns [{| type := "text"; text := "Error: " +:+ key +:+ " is required" |}]).
Proof.
  intros Ht Hkey Harg.
  destruct (listed_tool t Ht) as [(_ & Hreq & _) | (-> & Hreq & _)];
    rewrite Hreq in Hkey; [destruct Hkey|].
  destruct Hkey as [<-|[]]. rewrite call_tool_get, Harg. reflexivity.
Qed.

Lemma required_key_is_enforced_witness :
  call_tool "get_dotfile_content" {[ "path" := Py.PyStr ".bashrc" ]} Sample.w_ok
  = ([], Returns [{| type := "text"; text := "Error: filepath is required" |}]).
Proof.
  apply (required_key_is_enforced Sample.w_ok
           {| Tools.name := "get_dotfile_content";
              Tools.description := "Get the content of a specific dotfile";
              Tools.inputSchema :=
                Py.PyDict
                  [("type", Py.PyStr "object");
                   ("properties",
                    Py.PyDict
                      [("filepath",
                        Py.PyDict [("type", Py.PyStr "string");
                                   ("description", Py.PyStr "Path to the dotfile")])]);
                   ("required", Py.PyList [Py.PyStr "filepath"])] |}
           "filepath");
    [right; left; reflexivity | left; reflexivity | reflexivity].
Defined.

(** X12.  Arguments that fit the input schema a tool declares never make
    the dispatcher raise a type error: for every listed tool, when the
    required keys are there and the keys declared strings hold strings,
    [call_tool] returns one text, provided git can be run when the tool is
    [list_dotfiles]. *)
Theorem conforming_arguments_return (w : World) (t : Tools.Tool) (arguments : ArgMap) :
  In t Tools.list_tools →
  Tools.conforms (Tools.inputSchema t) arguments →
  (Tools.name t = "list_dotfiles" → ∃ r, spawn w (git_command w ["ls-files"]) = inr r) →
  ∃ answer,
    result (call_tool (Tools.name t) arguments) w
    = Returns [{| type := "text"; text := answer |}].
Proof.
  intros Ht [Hreq Hstr] Hgit.
  destruct (listed_tool t Ht) as [(Hn & _ & _) | (Hn & Hr & Hs)].
  - destruct (Hgit Hn) as [r Hr]. rewrite Hn. unfold result at 1.
    rewrite call_tool_list. cbn [snd].
    rewrite (list_dotfiles_result _ _ Hr). by eexists.
  - rewrite Hn. rewrite Hr in Hreq. rewrite Hs in Hstr.
    destruct (Hreq "filepath") as [v Hv]; [by left|].
    destruct (Hstr "filepath" v) as [fp ->]; [by left | done |].
    unfold result at 1. rewrite call_tool_get, Hv. cbv zeta.
    cbn [default from_option id]. destruct (negb _); [by eexists|].
    cbn [snd]. destruct (get_file_content_returns w fp) as [c ->]. by eexists.
Qed.

Lemma conforming_arguments_return_witness :
  ∃ answer,
    result (call_tool "get_dotfile_content" {[ "filepath" := Py.PyStr "nope.txt" ]}) Sample.w_nogit
    = Returns [{| type := "text"; text := answer |}].
Proof.
  apply (conforming_arguments_return Sample.w_nogit
           {| Tools.name := "get_dotfile_content";
              Tools.description := "Get the content of a specific dotfile";
              Tools.inputSchema :=
                Py.PyDict
                  [("type", Py.PyStr "object");
                   ("properties",
                    Py.PyDict
                      [("filepath",
                        Py.PyDict [("type", Py.PyStr "string");
                                   ("description", Py.PyStr "Path to the dotfile")])]);
                   ("required", Py.PyList [Py.PyStr "filepath"])] |}
           {[ "filepath" := Py.PyStr "nope.txt" ]}).
  - right; left; reflexivity.
  - split.
    + intros k [<-|[]]. eexists. reflexivity.
    + intros k v [<-|[]] Hv.
      change (Some (Py.PyStr "nope.txt") = Some v) in Hv.
      injection Hv as <-. by eexists.
  - intros H. discriminate H.
Defined.

(** ** The bootstrap *)

Section BootstrapFacts.
Import Bootstrap.

(** Every way the three methods can go. *)
Ltac main_cases h :=
  unfold main_try, init_and_run;
  destruct (get_capabilities h) as [[?|?]|?];
  repeat match goal with
         | |- context [construct h ?a] =>
             let E := fresh "Hc" in destruct (construct h a) as [[?|?]|] eqn:E
         | |- context [app_run h ?n ?a] =>
             let E := fresh "Hr" in destruct (app_run h n a) as [[?|?]|] eqn:E
         end;
  cbn [fst snd app runs omap].

Lemma main_try_runs_in_order (h : Host) :
  runs (fst (main_try h))
    `sublist_of` (match get_capabilities h with
                  | inr c => [named (FromApp c)]
                  | inl _ => []
                  end ++ [named EmptyDict; minimal]).
Proof.
  main_cases h;
    repeat first [apply sublist_nil | apply sublist_skip | apply sublist_cons].
Qed.

Lemma main_try_reruns_after_error (h : Host) (i : nat) (a : init_args) :
  runs (fst (main_try h)) !! i = Some a →
  (S i < length (runs (fst (main_try h))))%nat →
  ∃ n e, app_run h n a = Some (Error e).
Proof.
  main_cases h; intros Hi Hlen;
    destruct i as [|[|[|i]]]; simplify_eq/=; try lia; eauto.
Qed.

Example main_try_all_methods_fail :
  main_try Lines.h_failing
  = ([GetCapabilities; Construct (named EmptyDict); Run (named EmptyDict); Construct minimal],
     Some (Error (Exn "ValidationError" "3 validation errors for InitializationOptions"))).
Proof. reflexivity. Qed.

Example main_try_cancelled :
  main_try Lines.h_cancelled
  = ([GetCapabilities; Construct (named (FromApp (Py.PyDict [])));
      Run (named (FromApp (Py.PyDict [])))],
     Some (Base (Exn "CancelledError" ""))).
Proof. reflexivity. Qed.

(** X13.  [main] runs the server at most three times, with the options of
    its three methods in their order (the capabilities of the app, then
    empty capabilities, then no argument at all), skipping a method whose
    options cannot be built; and it runs the server again only after a run
    that failed with an [Exception]: a run that returned, or that was
    cancelled or interrupted, is the last. *)
Theorem main_try_runs (h : Host) :
  runs (fst (main_try h))
    `sublist_of` (match get_capabilities h with
                  | inr c => [named (FromApp c)]
                  | inl _ => []
                  end ++ [named EmptyDict; minimal])
  ∧ ∀ i a, runs (fst (main_try h)) !! i = Some a →
           (S i < length (runs (fst (main_try h))))%nat →
           ∃ n e, app_run h n a = Some (Error e).
Proof.
  split; [apply main_try_runs_in_order | apply main_try_reruns_after_error].
Qed.

(** X14.  When the [try] statement of [main] ends with an [Exception], it
    is the one the third method raised, building its options without
    arguments or running the server with them; and all three methods were
    attempted: the first (which begins by asking the app for its
    capabilities) and the second had each failed with an [Exception] of
    their own, which [main] caught. *)
Theorem main_try_error_is_the_last (h : Host) (e : exn) :
  snd (main_try h) = Some (Error e) →
  (construct h minimal = Some (Error e)
   ∨ (construct h minimal = None ∧ app_run h 3 minimal = Some (Error e)))
  ∧ (∃ e1, get_capabilities h = inl (Error e1)
           ∨ ∃ c, get_capabilities h = inr c
                  ∧ (construct h (named (FromApp c)) = Some (Error e1)
                     ∨ (construct h (named (FromApp c)) = None
                        ∧ app_run h 1 (named (FromApp c)) = Some (Error e1))))
  ∧ (∃ e2, construct h (named EmptyDict) = Some (Error e2)
           ∨ (construct h (named EmptyDict) = None
              ∧ app_run h 2 (named EmptyDict) = Some (Error e2)))
  ∧ In GetCapabilities (fst (main_try h))
  ∧ In (Construct (named EmptyDict)) (fst (main_try h))
  ∧ In (Construct minimal) (fst (main_try h)).
Proof.
  main_cases h; intros He; simplify_eq/=;
    (split; [by auto|]); (split; [by eauto 10|]); (split; [by eauto 10|]);
    repeat split; auto 10.
Qed.

Lemma main_try_error_is_the_last_witness :
  (construct Lines.h_failing minimal
     = Some (Error (Exn "ValidationError" "3 validation errors for InitializationOptions"))
   ∨ (construct Lines.h_failing minimal = None
      ∧ app_run Lines.h_failing 3 minimal
        = Some (Error (Exn "ValidationError" "3 validation errors for InitializationOptions"))))
  ∧ (∃ e1, get_capabilities Lines.h_failing = inl (Error e1)
           ∨ ∃ c, get_capabilities Lines.h_failing = inr c
                  ∧ (construct Lines.h_failing (named (FromApp c)) = Some (Error e1)
                     ∨ (construct Lines.h_failing (named (FromApp c)) = None
                        ∧ app_run Lines.h_failing 1 (named (FromApp c)) = Some (Error e1))))
  ∧ (∃ e2, construct Lines.h_failing (named EmptyDict) = Some (Error e2)
           ∨ (construct Lines.h_failing (named EmptyDict) = None
              ∧ app_run Lines.h_failing 2 (named EmptyDict) = Some (Error e2)))
  ∧ In GetCapabilities (fst (main_try Lines.h_failing))
  ∧ In (Construct (named EmptyDict)) (fst (main_try Lines.h_failing))
  ∧ In (Construct minimal) (fst (main_try Lines.h_failing)).
Proof.
  apply (main_try_error_is_the_last Lines.h_failing). reflexivity.
Defined.

End BootstrapFacts.

(** ** The home directory *)

Section Home.
Implicit Types (w : World) (s h : string).

Lemma rstrip_head (p : ascii → bool) c s :
  Py.rstrip_by p (String c s) = "" ∨ ∃ r, Py.rstrip_by p (String c s) = String c r.
Proof.
  simpl. destruct (Py.rstrip_by p s); [destruct (p c)|]; eauto.
Qed.

Lemma home_absolute w h :
  userhome w = Some h → Py.startswith h "/" = true →
  Py.startswith (expanduser w "~") "/" = true.
Proof.
  intros Hh Habs. rewrite expanduser_home, Hh.
  destruct (String.eqb_spec (Py.rstrip_sep h) ""); [reflexivity|].
  destruct h as [|c h]; [done|].
  assert (c = "/"%char) as ->.
  { unfold Py.startswith in Habs. cbn [String.prefix] in Habs.
    destruct (ascii_dec "/" c) as [<-|]; [done | discriminate Habs]. }
  unfold Py.rstrip_sep in *.
  destruct (rstrip_head (Ascii.eqb "/") "/" h) as [E|[r E]]; [done|].
  rewrite E. apply (startswith_self_app "/").
Qed.

End Home.

(** X15.  With an absolute home directory, every path [get_file_content]
    probes or opens is absolute, whatever the argument: what the tool reads
    never depends on the working directory of the server. *)
Theorem reads_are_absolute (w : World) (h filepath : string) :
  userhome w = Some h →
  Py.startswith h "/" = true →
  Forall (λ ev, match ev with
                | Exists p | Open p => Py.startswith p "/" = true
                | Spawn _ => False
                end)
         (trace (get_file_content filepath) w).
Proof.
  intros Hh Habs. pose proof (home_absolute _ _ Hh Habs) as Hhome.
  assert (Py.startswith (os_path_join (expanduser w "~") filepath) "/" = true) as Hp.
  { rewrite os_path_join_home.
    destruct (Py.startswith filepath "/") eqn:Hf; [done|].
    destruct (String.eqb_spec (expanduser w "~") "/") as [_|Hne];
      [apply (startswith_self_app "/")|].
    rewrite (startswith_app _ _ "/"%char); [done|].
    intros E. by rewrite E in Hhome. }
  unfold trace. rewrite get_file_content_eq. cbv zeta.
  destruct (exists_ w _); by repeat constructor.
Qed.

Lemma reads_are_absolute_witness :
  Forall (λ ev, match ev with
                | Exists p | Open p => Py.startswith p "/" = true
                | Spawn _ => False
                end)
         (trace (get_file_content "../v/.bashrc") Sample.w_ok).
Proof.
  apply (reads_are_absolute Sample.w_ok "/home/u"); reflexivity.
Defined.

(** X16.  When the home directory cannot be found (no [HOME], no password
    entry), nothing fails: the tilde stays as it is.  git is given the
    repository ["~/.cfg"] and the work tree ["~"], and a relative [filepath]
    is looked for under a directory literally named ["~"] in the working
    directory of the server. *)
Theorem without_home_directory (w : World) (args : list string) (filepath : string) :
  userhome w = None →
  Py.startswith filepath "/" = false →
  trace (run_git_command args) w
    = [Spawn ("git" :: "--git-dir=~/.cfg" :: "--work-tree=~" :: args)]
  ∧ ∃ t, trace (get_file_content filepath) w = Exists ("~/" +:+ filepath) :: t.
Proof.
  intros Hh Hrel. split.
  - unfold trace. rewrite run_git_command_eq. unfold git_command, expanduser.
    simpl. by rewrite Hh.
  - destruct (get_file_content_probes w filepath) as [t Ht]. exists t.
    rewrite Ht, os_path_join_home, Hrel, expanduser_home, Hh. reflexivity.
Qed.

Lemma without_home_directory_witness :
  let w := {| userhome := None; getpwnam := λ _, None;
              spawn := λ cmd, inr {| args := cmd; returncode := 128;
                                     stdout := ""; stderr := "" |};
              exists_ := λ _, false;
              read_text := λ _, inl (Exn "FileNotFoundError" "") |} in
  trace (run_git_command ["ls-files"]) w
    = [Spawn ["git"; "--git-dir=~/.cfg"; "--work-tree=~"; "ls-files"]]
  ∧ ∃ t, trace (get_file_content ".bashrc") w = Exists "~/.bashrc" :: t.
Proof.
  intros w. apply (without_home_directory w ["ls-files"] ".bashrc"); reflexivity.
Defined.
